(** * LinkedIn post tool: the text pipeline of [app.py]

    A shallow embedding of the non-UI pipeline of the Streamlit script
    [src/app.py]: the text sanitizer [clean_text_content], the four service
    wrappers ([search_web_content], [generate_linkedin_post],
    [translate_content], [upload_to_linkedin]) and the button handlers that
    drive them.

    Python [str] values are sequences of Unicode code points and are
    embedded as [list N].  Dictionaries decoded from JSON are [gmap string]
    maps.  Everything outside the process (the HTTP endpoint, the chat
    models, the publishing agent, the wall clock) is an oracle that answers
    from the history of the interaction so far; every call to it is recorded
    in a trace, so statements about "how many requests were issued" are
    statements about that trace. *)

From Stdlib Require Import NArith Ascii.
From stdpp Require Import gmap strings list fin_maps pretty.

Open Scope N_scope.

(** ** Strings as code point sequences *)

Abbreviation str := (list N).

(** ASCII literal to code points (each byte below 128 is its own code point). *)
Definition codes (s : string) : str :=
  map N_of_ascii (String.list_ascii_of_string s).

Definition LPAREN : N := 40.
Definition RPAREN : N := 41.
Definition SPACE : N := 32.
Definition LF : N := 10.
Definition BULLET : N := 8226.

(** Truthiness of a Python string or list: [if text] holds iff it is
    non-empty. *)
Definition truthy {A} (s : list A) : bool :=
  match s with [] => false | _ :: _ => true end.

(** The characters [str.split()] and [str.strip()] treat as whitespace
    (CPython's [Py_UNICODE_ISSPACE]). *)
Definition isspace (c : N) : bool :=
  ((9 <=? c) && (c <=? 13)) || ((28 <=? c) && (c <=? 32))
  || (c =? 133) || (c =? 160) || (c =? 5760)
  || ((8192 <=? c) && (c <=? 8202))
  || (c =? 8232) || (c =? 8233) || (c =? 8239) || (c =? 8287)
  || (c =? 12288).

(** ** The regular-expression fragment used by the sanitizer

    [re.sub(r'\([^)]*\)', '', text)] only needs literal characters, negated
    one-character classes and the greedy star.  [match_here] is the
    backtracking matcher anchored at the start of its input; it returns the
    input left after the preferred match. *)

Inductive atom :=
| Lit (c : N)        (* a literal character, e.g. [\(] *)
| NotLit (c : N).    (* a negated class of one character, e.g. [[^)]] *)

Inductive piece :=
| One (a : atom)
| Star (a : atom).   (* greedy repetition *)

Definition regex := list piece.

Definition atom_matches (a : atom) (c : N) : bool :=
  match a with
  | Lit d => c =? d
  | NotLit d => negb (c =? d)
  end.

Fixpoint match_here (p : regex) : str → option str :=
  match p with
  | [] => fun s => Some s
  | One a :: p' => fun s =>
      match s with
      | c :: s' => if atom_matches a c then match_here p' s' else None
      | [] => None
      end
  | Star a :: p' =>
      fix star (s : str) : option str :=
        match s with
        | c :: s' =>
            if atom_matches a c then
              match star s' with
              | Some r => Some r
              | None => match_here p' s
              end
            else match_here p' s
        | [] => match_here p' []
        end
  end.

(** [re.sub(p, repl, s)]: scan left to right, replace every non-overlapping
    leftmost match.  [skip] counts the characters of the current match that
    are still to be dropped. *)
Fixpoint re_sub_from (p : regex) (repl : str) (skip : nat) (s : str) : str :=
  match skip, s with
  | S k, _ :: s' => re_sub_from p repl k s'
  | S _, [] => []
  | O, _ =>
      match match_here p s with
      | Some rest =>
          repl ++
          match (length s - length rest)%nat, s with
          | S k, _ :: s' => re_sub_from p repl k s'
          | O, c :: s' => c :: re_sub_from p repl O s'
          | _, [] => []
          end
      | None =>
          match s with
          | c :: s' => c :: re_sub_from p repl O s'
          | [] => []
          end
      end
  end.

Definition re_sub (p : regex) (repl : str) (s : str) : str :=
  re_sub_from p repl O s.

(** The pattern [\([^)]*\)]. *)
Definition paren_span : regex :=
  [One (Lit LPAREN); Star (NotLit RPAREN); One (Lit RPAREN)].

(** ** [str.split()], [' '.join], [str.replace], [str.strip()] *)

Definition starts_word (s : str) : bool :=
  match s with
  | c :: _ => negb (isspace c)
  | [] => false
  end.

Definition push_head (c : N) (ws : list str) : list str :=
  match ws with
  | w :: ws' => (c :: w) :: ws'
  | [] => [[c]]
  end.

(** [text.split()]: the maximal runs of non-whitespace characters. *)
Fixpoint split (s : str) : list str :=
  match s with
  | [] => []
  | c :: s' =>
      if isspace c then split s'
      else if starts_word s' then push_head c (split s')
      else [c] :: split s'
  end.

Fixpoint join (sep : str) (ws : list str) : str :=
  match ws with
  | [] => []
  | [w] => w
  | w :: ws' => w ++ sep ++ join sep ws'
  end.

(** [text.replace(c, '')] for a one-character [c]. *)
Definition remove_char (c : N) (s : str) : str :=
  List.filter (fun x => negb (x =? c)) s.

Fixpoint lstrip (s : str) : str :=
  match s with
  | c :: s' => if isspace c then lstrip s' else s
  | [] => []
  end.

Fixpoint rstrip (s : str) : str :=
  match s with
  | c :: s' =>
      match rstrip s' with
      | [] => if isspace c then [] else [c]
      | r => c :: r
      end
  | [] => []
  end.

Definition strip (s : str) : str := rstrip (lstrip s).

(** ** [clean_text_content] (app.py, lines 118-133) *)

Definition clean_text_content (text : str) : str :=
  if negb (truthy text) then text
  else
    let text := re_sub paren_span [] text in
    let text := join [SPACE] (split text) in
    let text := remove_char RPAREN (remove_char LPAREN text) in
    strip text.

(** The same function on a value that may be Python's [None]:
    [not None] holds, so [None] is returned as it is. *)
Definition clean_text_content_nullable (text : option str) : option str :=
  match text with
  | None => None
  | Some t => Some (clean_text_content t)
  end.

(** ** Search results, drafts and the outside world *)

(** One decoded search hit: a JSON object with string-valued fields
    ([title], [snippet], [link], [date]). *)
Abbreviation item := (gmap string str).

(** The decoded response body: the optional [organic] and [news] arrays. *)
Abbreviation content_data := (gmap string (list (gmap string str))).

(** A Python [(value, None)] / [(None, message)] pair. *)
Inductive ret (A : Type) :=
| Value (a : A)
| Error (msg : str).
Arguments Value {A} a.
Arguments Error {A} msg.

(** What a call out of the process does: it returns, or it raises an
    exception whose [str(e)] is [msg]. *)
Inductive reply (A : Type) :=
| Returns (a : A)
| Raises (msg : str).
Arguments Returns {A} a.
Arguments Raises {A} msg.

(** [requests.post] followed by [raise_for_status] and [json]: a decoded
    body, a [requests.RequestException], or an exception of another class. *)
Inductive http_reply :=
| HttpOk (body : content_data)
| HttpRequestException (msg : str)
| HttpOtherException (msg : str).

(** Calls that leave the process, and what the page shows. *)
Inductive event :=
| HttpPost (url api_key q : str) (num : nat)
| Gpt4Invoke (api_key prompt : str)
| SutraInvoke (api_key message : str)
| AgentRun (openai_key composio_key task : str)
| StError (msg : str)
| StSuccess (msg : str)
| StCode (body : str)
| StMarkdown (html : str).

Definition is_network (e : event) : bool :=
  match e with
  | HttpPost _ _ _ _ | Gpt4Invoke _ _ | SutraInvoke _ _ | AgentRun _ _ _ => true
  | _ => false
  end.

Definition is_http (e : event) : bool :=
  match e with HttpPost _ _ _ _ => true | _ => false end.

Definition is_gpt4 (e : event) : bool :=
  match e with Gpt4Invoke _ _ => true | _ => false end.

(** The environment answers each call from the history so far. *)
Record env := {
  requests_post : list event → str → str → str → nat → http_reply;
  gpt4_invoke : list event → str → str → reply str;
  sutra_invoke : list event → str → str → reply str;
  agent_run : list event → str → str → str → reply str;
  datetime_now : list event → nat
}.

(** An entry of [post_variations]. *)
Record post := {
  content : str;
  timestamp : nat;
  variation : str;
  language : str
}.

(** Process state: the interaction so far, the [st.cache_data] store of
    [search_web_content] with the timer it reads, and [st.session_state]. *)
Record world := {
  trace : list event;
  search_cache : gmap (str * str * str * nat) (ret content_data * nat);
  timer : nat;
  generated_posts : list post;
  search_results : option content_data
}.

Definition set_trace (t : list event) (w : world) : world :=
  {| trace := t; search_cache := search_cache w; timer := timer w;
     generated_posts := generated_posts w; search_results := search_results w |}.

Definition set_search_cache
    (c : gmap (str * str * str * nat) (ret content_data * nat)) (w : world) : world :=
  {| trace := trace w; search_cache := c; timer := timer w;
     generated_posts := generated_posts w; search_results := search_results w |}.

Definition set_timer (t : nat) (w : world) : world :=
  {| trace := trace w; search_cache := search_cache w; timer := t;
     generated_posts := generated_posts w; search_results := search_results w |}.

Definition set_generated_posts (ps : list post) (w : world) : world :=
  {| trace := trace w; search_cache := search_cache w; timer := timer w;
     generated_posts := ps; search_results := search_results w |}.

Definition set_search_results (r : option content_data) (w : world) : world :=
  {| trace := trace w; search_cache := search_cache w; timer := timer w;
     generated_posts := generated_posts w; search_results := r |}.

(** A fresh session: nothing cached, [generated_posts = []],
    [search_results = []]. *)
Definition initial_world : world :=
  {| trace := []; search_cache := ∅; timer := 0%nat;
     generated_posts := []; search_results := None |}.

(** ** State and exception monad *)

Inductive outcome (A : Type) :=
| Done (a : A)
| Uncaught (exc : str).
Arguments Done {A} a.
Arguments Uncaught {A} exc.

Definition M (A : Type) : Type := world → outcome A * world.

#[export] Instance M_ret : MRet M := fun A a w => (Done a, w).

#[export] Instance M_bind : MBind M := fun A B k m w =>
  match m w with
  | (Done a, w') => k a w'
  | (Uncaught e, w') => (Uncaught e, w')
  end.

Definition emit (e : event) : M unit :=
  fun w => (Done tt, set_trace (trace w ++ [e]) w).

Definition get_world : M world := fun w => (Done w, w).

Definition modify (f : world → world) : M unit := fun w => (Done tt, f w).

Definition raise {A} (exc : str) : M A := fun w => (Uncaught exc, w).

(** [for x in xs: acc = body(acc, x)] *)
Fixpoint for_each {A S} (xs : list A) (body : S → A → M S) (acc : S) : M S :=
  match xs with
  | [] => mret acc
  | x :: xs' => acc' ← body acc x; for_each xs' body acc'
  end.

(** The events an action appended to the trace. *)
Definition emitted (w w' : world) : list event :=
  drop (length (trace w)) (trace w').

(** A line of a triple-quoted literal. *)
Definition ln (s : string) : str := codes s ++ [LF].

(** [str(n)] for a non-negative integer. *)
Definition str_of_nat (n : nat) : str := codes (pretty n).

(** ** The service wrappers *)

Section App.

Context (E : env).

(** A call out of the process: ask the environment, record the call. *)
Definition call_requests_post (url api_key q : str) (num : nat) : M http_reply :=
  fun w => (Done (requests_post E (trace w) url api_key q num),
            set_trace (trace w ++ [HttpPost url api_key q num]) w).

Definition call_gpt4 (api_key prompt : str) : M (reply str) :=
  fun w => (Done (gpt4_invoke E (trace w) api_key prompt),
            set_trace (trace w ++ [Gpt4Invoke api_key prompt]) w).

Definition call_sutra (api_key message : str) : M (reply str) :=
  fun w => (Done (sutra_invoke E (trace w) api_key message),
            set_trace (trace w ++ [SutraInvoke api_key message]) w).

Definition call_agent (openai_key composio_key task : str) : M (reply str) :=
  fun w => (Done (agent_run E (trace w) openai_key composio_key task),
            set_trace (trace w ++ [AgentRun openai_key composio_key task]) w).

Definition now : M nat := fun w => (Done (datetime_now E (trace w)), w).

(** *** [translate_content] (lines 66-91) *)

Definition system_message (content target_language : str) : str :=
  codes "You are a professional translator. Translate the following LinkedIn post to "
    ++ target_language ++ ln "."
    ++ ln "        Important guidelines:"
    ++ ln "        1. Maintain the professional tone and style"
    ++ ln "        2. Keep all hashtags and translate them appropriately"
    ++ ln "        3. Preserve all formatting and line breaks"
    ++ codes "        4. Keep emojis that make sense in " ++ target_language ++ [LF]
    ++ ln "        5. Ensure the translation is natural and engaging"
    ++ ln "        6. Maintain the same length and structure"
    ++ ln "        7. Keep any technical terms or brand names unchanged"
    ++ ln "        8. Ensure the call-to-action is culturally appropriate"
    ++ ln "        "
    ++ ln "        Post to translate:"
    ++ codes "        " ++ content ++ [LF]
    ++ codes "        ".

Definition translate_content (content target_language api_key : str) : M (ret str) :=
  if negb (truthy api_key) then mret (Error (codes "Sutra API key is required"))
  else
    r ← call_sutra api_key (system_message content target_language);
    match r with
    | Returns response => mret (Value response)
    | Raises e => mret (Error (codes "Translation failed: " ++ e))
    end.

(** *** [search_web_content] (lines 94-115) *)

(** The function body, without the [st.cache_data] decorator.  The JSON
    payload [{"q": query, "num": num_results}] and the [X-API-KEY] header are
    recorded by their fields. *)
Definition search_web_content_uncached
    (query search_type api_key : str) (num_results : nat) : M (ret content_data) :=
  if negb (truthy api_key) then mret (Error (codes "Serper API key is required"))
  else
    let url := codes "https://google.serper.dev/" ++ search_type in
    r ← call_requests_post url api_key query num_results;
    match r with
    | HttpOk body => mret (Value body)
    | HttpRequestException e => mret (Error (codes "Search failed: " ++ e))
    | HttpOtherException e => raise e
    end.

Definition ttl : nat := 3600.

(** [@st.cache_data(ttl=3600)]: the store is keyed by the values of all the
    arguments of the call; an entry is served while the timer is below its
    expiry; whatever the body returns is stored, and nothing is stored when
    the body raises. *)
Definition search_web_content
    (query search_type api_key : str) (num_results : nat) : M (ret content_data) :=
  fun w =>
    let key := (query, search_type, api_key, num_results) in
    let miss :=
      match search_web_content_uncached query search_type api_key num_results w with
      | (Done v, w') =>
          (Done v, set_search_cache (<[key := (v, (timer w' + ttl)%nat)]> (search_cache w')) w')
      | (Uncaught e, w') => (Uncaught e, w')
      end in
    match search_cache w !! key with
    | Some (v, expires) => if (timer w <? expires)%nat then (Done v, w) else miss
    | None => miss
    end.

(** *** [generate_linkedin_post] (lines 136-201) *)

(** One turn of either [for item in ...] loop (lines 150-154, 158-162). *)
Definition summarize (acc : str * list str) (item : gmap string str) : str * list str :=
  let '(content_summary, links) := acc in
  let title := clean_text_content (default [] (item !! "title"%string)) in
  let snippet := clean_text_content (default [] (item !! "snippet"%string)) in
  let content_summary :=
    content_summary ++ [BULLET] ++ codes " " ++ title ++ codes ": " ++ snippet ++ [LF] in
  let links :=
    if truthy (default [] (item !! "link"%string))
    then links ++ [default [] (item !! "link"%string)]
    else links in
  (content_summary, links).

(** Lines 145-162: the content summary and the collected links. *)
Definition extract (data : content_data) : str * list str :=
  let acc := ([], []) in
  let acc :=
    match data !! "organic"%string with
    | Some items => fold_left summarize (take 5 items) acc
    | None => acc
    end in
  match data !! "news"%string with
  | Some items => fold_left summarize (take 3 items) acc
  | None => acc
  end.

Definition base_prompt
    (target_language content_summary : str) (links : list str) (custom_prompt : str) : str :=
  [LF]
    ++ codes "    Create an engaging LinkedIn post in " ++ target_language
    ++ ln " based on the following content. The post should:"
    ++ ln "    "
    ++ ln "    1. Be professional yet conversational"
    ++ ln "    2. Include relevant hashtags (3-5)"
    ++ ln "    3. Have a compelling hook in the first line"
    ++ ln "    4. Be between 100-300 words"
    ++ ln "    5. Include a call-to-action"
    ++ ln "    6. Use emojis strategically (6-8 maximum)"
    ++ ln "    7. Structure with short paragraphs for readability"
    ++ codes "    8. Ensure all text is properly formatted for " ++ target_language ++ [LF]
    ++ ln "    9. DO NOT use parentheses () in the text"
    ++ ln "    10. Use clear, direct language without parenthetical expressions"
    ++ ln "    "
    ++ ln "    Content to base the post on:"
    ++ codes "    " ++ content_summary ++ [LF]
    ++ ln "    "
    ++ ln "    Relevant links to potentially reference:"
    ++ codes "    " ++ join [LF] (take 3 links) ++ [LF]
    ++ ln "    "
    ++ codes "    " ++ (if truthy custom_prompt then custom_prompt else []) ++ [LF]
    ++ ln "    "
    ++ ln "    Generate a LinkedIn post that will engage professional audiences and encourage interaction."
    ++ codes "    ".

Definition generate_linkedin_post
    (data : content_data) (custom_prompt api_key target_language : str) : M (ret str) :=
  if negb (truthy api_key) then mret (Error (codes "OpenAI API key is required"))
  else
    let target_language := strip target_language in
    let '(content_summary, links) := extract data in
    r ← call_gpt4 api_key (base_prompt target_language content_summary links custom_prompt);
    match r with
    | Returns response => mret (Value (clean_text_content response))
    | Raises e => mret (Error (codes "Post generation failed: " ++ e))
    end.

(** *** [upload_to_linkedin] (lines 204-228) *)

Definition task (post_content author_urn : str) : str :=
  [LF]
    ++ codes "        Create a LinkedIn post by author " ++ author_urn ++ ln " "
    ++ ln "        and set visibility to PUBLIC, lifecycleState to PUBLISHED, and resharing enabled."
    ++ ln "        "
    ++ codes "        Post content: '" ++ post_content ++ ln "'"
    ++ codes "        ".

(** The [try] block (model, prompt hub, toolset, agent, executor) is one
    interaction with the agent service; the global [openai_api_key] it reads
    is a parameter here. *)
Definition upload_to_linkedin
    (openai_api_key : str) (post_content author_urn api_key : str) : M (ret str) :=
  if negb (truthy api_key) then mret (Error (codes "Composio API key is required"))
  else
    r ← call_agent openai_api_key api_key (task post_content author_urn);
    match r with
    | Returns result => mret (Value result)
    | Raises e => mret (Error (codes "LinkedIn upload failed: " ++ e))
    end.


(** ** The button handlers *)

(** The values of the input widgets during one run of the script. *)
Record widgets := {
  serper_api_key : str;
  openai_api_key : str;
  composio_api_key : str;
  sutra_api_key : str;
  linkedin_author_urn : str;
  selected_language : str;
  search_type : str;
  num_results : nat;
  search_query : str;
  custom_prompt : str
}.

(** Lines 359-363: the instructions handed to the generator in turn [i]. *)
Definition variation_prompt (custom_prompt : str) (i : nat) : str :=
  let variation_prompt := clean_text_content custom_prompt in
  if (i =? 1)%nat then
    variation_prompt ++ [LF; LF] ++ codes "Make this version more casual and story-driven."
  else if (i =? 2)%nat then
    variation_prompt ++ [LF; LF] ++ codes "Make this version more data-driven and professional."
  else variation_prompt.

(** Lines 359-379: one turn of [for i in range(3)]. *)
Definition generate_variation (ui : widgets) (results : content_data)
    (post_variations : list post) (i : nat) : M (list post) :=
  r ← generate_linkedin_post results
        (variation_prompt (custom_prompt ui) i)
        (openai_api_key ui)
        (clean_text_content (selected_language ui));
  match r with
  | Value post_content =>
      if truthy post_content then
        t ← now;
        mret (post_variations ++
              [{| content := post_content;
                  timestamp := t;
                  variation := codes "Variation " ++ str_of_nat (i + 1);
                  language := clean_text_content (selected_language ui) |}])
      else mret post_variations
  | Error _ => mret post_variations
  end.

(** Lines 335-386: "Search & Generate Posts". *)
Definition on_search (ui : widgets) : M unit :=
  if negb (truthy (search_query ui)) then
    emit (StError (codes "Please enter a search query"))
  else if negb (truthy (serper_api_key ui)) then
    emit (StError (codes "Please provide Serper API key in the sidebar"))
  else if negb (truthy (openai_api_key ui)) then
    emit (StError (codes "Please provide OpenAI API key in the sidebar"))
  else
    r ← search_web_content (search_query ui) (search_type ui)
          (serper_api_key ui) (num_results ui);
    match r with
    | Error search_error =>
        emit (StError (codes "Search failed: " ++ search_error))
    | Value results =>
        modify (set_search_results (Some results));;
        post_variations ← for_each (seq 0 3) (generate_variation ui results) [];
        modify (set_generated_posts post_variations);;
        if truthy post_variations then
          emit (StSuccess ([9989] ++ codes " Generated "
                           ++ str_of_nat (length post_variations)
                           ++ codes " post variations in "
                           ++ clean_text_content (selected_language ui) ++ codes "!"))
        else
          emit (StError (codes "Failed to generate posts. Please check your API keys and try again."))
    end.

(** Lines 445-448: "Copy" under draft [i], with the current text of its
    edit box.  The button exists only for a stored draft. *)
Definition on_copy (i : nat) (edited_content : str) : M unit :=
  w ← get_world;
  match generated_posts w !! i with
  | None => mret tt
  | Some post_data =>
      let cleaned_content := clean_text_content edited_content in
      emit (StCode cleaned_content);;
      emit (StSuccess ([9989] ++ codes " Post copied! You can now paste it anywhere."))
  end.

Definition uploaded_html (language_display : str) : str :=
  [LF]
    ++ codes "                                <div class=" ++ [34] ++ codes "success-box"
    ++ [34] ++ ln ">"
    ++ codes "                                    <strong>" ++ [127881]
    ++ ln " Successfully uploaded to LinkedIn!</strong><br>"
    ++ codes "                                    Your post is now live on your LinkedIn profile in "
    ++ language_display ++ ln "."
    ++ ln "                                </div>"
    ++ codes "                                ".

(** Lines 459-481: "Upload to LinkedIn" under draft [i]. *)
Definition on_upload (ui : widgets) (i : nat) (edited_content : str) : M unit :=
  w ← get_world;
  match generated_posts w !! i with
  | None => mret tt
  | Some post_data =>
      let language_display := clean_text_content (language post_data) in
      if negb (truthy (composio_api_key ui)) then
        emit (StError (codes "Please provide Composio API key in the sidebar"))
      else if negb (truthy (linkedin_author_urn ui)) then
        emit (StError (codes "Please provide LinkedIn Author URN in the sidebar"))
      else
        let cleaned_content := clean_text_content edited_content in
        r ← upload_to_linkedin (openai_api_key ui)
              cleaned_content (linkedin_author_urn ui) (composio_api_key ui);
        match r with
        | Error upload_error => emit (StError (codes "Upload failed: " ++ upload_error))
        | Value _ => emit (StMarkdown (uploaded_html language_display))
        end
  end.

(** Lines 497-500: "Clear All Data". *)
Definition on_clear : M unit :=
  modify (set_generated_posts []);;
  modify (set_search_results None).

End App.

(** ** The sanitizer as the specification words it

    "Removes every shortest span from a [(] to the next [)]; collapses every
    whitespace run to a single space; strips any remaining stray [(] or [)];
    trims leading and trailing whitespace; empty or null input is returned
    unchanged."  Each phrase is one pass below, written without the regular
    expression engine and without [split]/[join]. *)

Definition has_close (s : str) : bool := existsb (N.eqb RPAREN) s.

(** What follows the first [)] of [s], if there is one. *)
Fixpoint after_close (s : str) : option str :=
  match s with
  | [] => None
  | c :: s' => if c =? RPAREN then Some s' else after_close s'
  end.

(** [inside] tells whether the scan is within a span that will be closed. *)
Fixpoint drop_spans (inside : bool) (s : str) : str :=
  match s with
  | [] => []
  | c :: s' =>
      if inside then drop_spans (negb (c =? RPAREN)) s'
      else if (c =? LPAREN) && has_close s' then drop_spans true s'
      else c :: drop_spans false s'
  end.

Definition starts_space (s : str) : bool :=
  match s with
  | c :: _ => isspace c
  | [] => false
  end.

Fixpoint collapse_whitespace (s : str) : str :=
  match s with
  | [] => []
  | c :: s' =>
      if isspace c then
        if starts_space s' then collapse_whitespace s'
        else SPACE :: collapse_whitespace s'
      else c :: collapse_whitespace s'
  end.

Definition strip_parens (s : str) : str :=
  List.filter (fun c => negb ((c =? LPAREN) || (c =? RPAREN))) s.

Definition trim (s : str) : str := rev (lstrip (rev (lstrip s))).

Definition sanitize_spec (text : option str) : option str :=
  match text with
  | None => None
  | Some [] => Some []
  | Some t =>
      Some (trim (strip_parens (collapse_whitespace (drop_spans false t))))
  end.

(** ** Vocabulary of the statements *)

(** A string of whitespace only. *)
Definition blank (s : str) : Prop := Forall (fun c => isspace c = true) s.

(** The single space a collapsed text starts with when the text started
    with whitespace. *)
Definition lead (s : str) : str := if starts_space s then [SPACE] else [].

Definition no_parens (s : str) : Prop := (LPAREN ∉ s) ∧ (RPAREN ∉ s).

(** The line one search hit contributes to the content summary. *)
Definition summary_line (it : gmap string str) : str :=
  [BULLET] ++ codes " " ++ clean_text_content (default [] (it !! "title"%string))
    ++ codes ": " ++ clean_text_content (default [] (it !! "snippet"%string)) ++ [LF].

(** The link one search hit contributes, if it has a non-empty one. *)
Definition item_links (it : gmap string str) : list str :=
  if truthy (default [] (it !! "link"%string))
  then [default [] (it !! "link"%string)] else [].

(** The hits the generator reads: the first five organic ones, then the
    first three news ones. *)
Definition used_items (data : content_data) : list (gmap string str) :=
  take 5 (default [] (data !! "organic"%string))
    ++ take 3 (default [] (data !! "news"%string)).

(** The prompt sent to the model in turn [i] of the generation loop. *)
Definition variation_request (ui : widgets) (results : content_data) (i : nat) : str :=
  base_prompt (strip (clean_text_content (selected_language ui)))
    (extract results).1 (extract results).2
    (variation_prompt (custom_prompt ui) i).

(** The draft stored for a reply of the model in turn [i], if any. *)
Definition kept (E : env) (ui : widgets) (i : nat) (t : list event)
    (r : reply str) : list post :=
  match r with
  | Returns response =>
      if truthy (clean_text_content response) then
        [{| content := clean_text_content response;
            timestamp := datetime_now E t;
            variation := codes "Variation " ++ str_of_nat (i + 1);
            language := clean_text_content (selected_language ui) |}]
      else []
  | Raises _ => []
  end.

(** What [generate_linkedin_post] returned in each turn of the loop started
    in world [w]. *)
Fixpoint compose_runs (E : env) (ui : widgets) (results : content_data)
    (turns : list nat) (w : world) : list (ret str) :=
  match turns with
  | [] => []
  | i :: turns' =>
      match generate_linkedin_post E results
              (variation_prompt (custom_prompt ui) i) (openai_api_key ui)
              (clean_text_content (selected_language ui)) w with
      | (Done r, w') => r :: compose_runs E ui results turns' w'
      | (Uncaught _, _) => []
      end
  end.

Definition failed {A} (r : ret A) : bool :=
  match r with Error _ => true | Value _ => false end.

Definition with_content (r : ret str) : bool :=
  match r with Value c => truthy c | Error _ => false end.

(** The content a turn adds to [post_variations], if it adds any. *)
Definition stored_content (r : ret str) : option str :=
  match r with
  | Value c => if truthy c then Some c else None
  | Error _ => None
  end.

(** A draft whose content is the sanitized form of a reply of the model. *)
Definition drafted (E : env) (p : post) : Prop :=
  ∃ t api_key prompt response,
    gpt4_invoke E t api_key prompt = Returns response
    ∧ content p = clean_text_content response.

(** What [search_web_content] makes of the reply of the endpoint. *)
Definition search_outcome (r : http_reply) : outcome (ret content_data) :=
  match r with
  | HttpOk body => Done (Value body)
  | HttpRequestException e => Done (Error (codes "Search failed: " ++ e))
  | HttpOtherException e => Uncaught e
  end.

(** The message that ends a generation round (lines 383-386). *)
Definition report (ui : widgets) (post_variations : list post) : event :=
  if truthy post_variations then
    StSuccess ([9989] ++ codes " Generated "
               ++ str_of_nat (length post_variations)
               ++ codes " post variations in "
               ++ clean_text_content (selected_language ui) ++ codes "!")
  else
    StError (codes "Failed to generate posts. Please check your API keys and try again.").

Definition is_success (e : event) : bool :=
  match e with StSuccess _ => true | _ => false end.

(** The value the cache serves for a call in world [w], if it holds an
    entry for the call that has not expired. *)
Definition cached (w : world) (key : str * str * str * nat) : option (ret content_data) :=
  match search_cache w !! key with
  | Some (v, expires) => if (timer w <? expires)%nat then Some v else None
  | None => None
  end.

(** Every entry stored for a call without an API key is the refusal of that
    call. *)
Definition cache_ok (w : world) : Prop :=
  ∀ query search_type num_results v expires,
    search_cache w !! (query, search_type, [], num_results) = Some (v, expires) →
    v = Error (codes "Serper API key is required").

(** The request of turn [i] of the generation loop. *)
Definition generation_request (ui : widgets) (results : content_data) (i : nat) : event :=
  Gpt4Invoke (openai_api_key ui) (variation_request ui results i).

(** The invariant of a session: every stored draft is the sanitized form
    of a reply of the model, and the cache is sound for calls without key. *)
Definition session_ok (E : env) (w : world) : Prop :=
  Forall (drafted E) (generated_posts w) ∧ cache_ok w.


(** A text whose only whitespace characters are plain spaces. *)
Definition tidy (s : str) : Prop := ∀ c, c ∈ s → isspace c = true → c = SPACE.

(** A non-empty run of characters without whitespace. *)
Definition word (w : str) : Prop :=
  w ≠ [] ∧ Forall (fun c => isspace c = false) w.

(** [' '.join(text.split())] *)
Definition normalize (s : str) : str := join [SPACE] (split s).

(** One user action, or time passing. *)
Inductive step (E : env) : world → world → Prop :=
| step_search (ui : widgets) (w : world) : step E w (on_search E ui w).2
| step_copy (i : nat) (edited_content : str) (w : world) :
    step E w (on_copy i edited_content w).2
| step_upload (ui : widgets) (i : nat) (edited_content : str) (w : world) :
    step E w (on_upload E ui i edited_content w).2
| step_clear (w : world) : step E w (on_clear w).2
| step_wait (n : nat) (w : world) : step E w (set_timer (timer w + n) w).

Definition reachable (E : env) (w : world) : Prop :=
  rtc (step E) initial_world w.

(** ** Sample inputs *)

Definition demo_hit (title : string) : gmap string str :=
  {[ "title"%string := codes title;
     "snippet"%string := codes "Agents plan and act (Reuters)";
     "link"%string := codes "https://example.org/a" ]}.

(** A response with ten organic hits and five news hits. *)
Definition demo_results : content_data :=
  {[ "organic"%string := replicate 10 (demo_hit "Agentic AI");
     "news"%string := replicate 5 (demo_hit "Frameworks") ]}.

(** An environment in which every call succeeds. *)
Definition demo_env : env :=
  {| requests_post := fun _ _ _ _ _ => HttpOk demo_results;
     gpt4_invoke := fun _ _ _ => Returns (codes "Big news (really) today");
     sutra_invoke := fun _ _ _ => Returns (codes "Grandes noticias");
     agent_run := fun _ _ _ _ => Returns (codes "created");
     datetime_now := fun t => length t |}.

(** An environment whose model answers with a parenthesis only. *)
Definition aside_env : env :=
  {| requests_post := fun _ _ _ _ _ => HttpOk demo_results;
     gpt4_invoke := fun _ _ _ => Returns (codes "(draft)");
     sutra_invoke := fun _ _ _ => Returns [];
     agent_run := fun _ _ _ _ => Returns (codes "created");
     datetime_now := fun t => length t |}.

Definition demo_ui : widgets :=
  {| serper_api_key := codes "serper-key";
     openai_api_key := codes "openai-key";
     composio_api_key := codes "composio-key";
     sutra_api_key := [];
     linkedin_author_urn := codes "urn:li:person:1";
     selected_language := codes "English";
     search_type := codes "search";
     num_results := 10;
     search_query := codes "Agentic AI Frameworks";
     custom_prompt := codes "use (x)" |}.

(** The same widgets with the author identity left empty. *)
Definition demo_ui_no_author : widgets :=
  {| serper_api_key := serper_api_key demo_ui;
     openai_api_key := openai_api_key demo_ui;
     composio_api_key := composio_api_key demo_ui;
     sutra_api_key := sutra_api_key demo_ui;
     linkedin_author_urn := [];
     selected_language := selected_language demo_ui;
     search_type := search_type demo_ui;
     num_results := num_results demo_ui;
     search_query := search_query demo_ui;
     custom_prompt := custom_prompt demo_ui |}.

(** The session after one "Search & Generate Posts". *)
Definition demo_world : world := (on_search demo_env demo_ui initial_world).2.

(** * The rest of the script *)

(** ** The supported languages (lines 19-31) *)

Definition languages : list str :=
  map codes
    ["English"; "Hindi"; "Gujarati"; "Bengali"; "Tamil";
     "Telugu"; "Kannada"; "Malayalam"; "Punjabi"; "Marathi";
     "Urdu"; "Assamese"; "Odia"; "Sanskrit"; "Korean";
     "Japanese"; "Arabic"; "French"; "German"; "Spanish";
     "Portuguese"; "Russian"; "Chinese"; "Vietnamese"; "Thai";
     "Indonesian"; "Turkish"; "Polish"; "Ukrainian"; "Dutch";
     "Italian"; "Greek"; "Hebrew"; "Persian"; "Swedish";
     "Norwegian"; "Danish"; "Finnish"; "Czech"; "Hungarian";
     "Romanian"; "Bulgarian"; "Croatian"; "Serbian"; "Slovak";
     "Slovenian"; "Estonian"; "Latvian"; "Lithuanian"; "Malay";
     "Tagalog"; "Swahili"]%string.

(** ** The streaming callback (lines 34-42)

    The container is a page placeholder: [markdown] replaces what it shows.
    It is kept as the list of the texts it was asked to show, oldest
    first. *)

Module Stream.

Record StreamHandler := {
  container : list str;
  text : str;
  run_id_ignore_token : option str
}.

(** [__init__(self, container, initial_text="")] *)
Definition init (container : list str) (initial_text : str) : StreamHandler :=
  {| container := container; text := initial_text; run_id_ignore_token := None |}.

(** [on_llm_new_token(self, token)] *)
Definition on_llm_new_token (self : StreamHandler) (token : str) : StreamHandler :=
  let text := text self ++ token in
  {| container := container self ++ [text];
     text := text;
     run_id_ignore_token := run_id_ignore_token self |}.

End Stream.

(** ** The word count under a draft (line 451) *)

Definition word_count (edited_content : str) : nat :=
  length (split edited_content).

(** ** More vocabulary *)

(** A draft as the session keeps it: not empty, without parentheses, with
    plain spaces as its only whitespace. *)
Definition well_formed (p : post) : Prop :=
  truthy (content p) = true ∧ no_parens (content p) ∧ tidy (content p).

(** The label of the draft of turn [i]. *)
Definition variation_label (i : nat) : str :=
  codes "Variation " ++ str_of_nat (i + 1).

(** The fields of the session state and of the cache. *)
Definition same_session (w w' : world) : Prop :=
  generated_posts w' = generated_posts w
  ∧ search_results w' = search_results w
  ∧ search_cache w' = search_cache w
  ∧ timer w' = timer w.

(** An environment whose search endpoint fails with an exception that is
    not a [requests.RequestException]. *)
Definition crash_env : env :=
  {| requests_post := fun _ _ _ _ _ => HttpOtherException (codes "ValueError");
     gpt4_invoke := fun _ _ _ => Returns (codes "text");
     sutra_invoke := fun _ _ _ => Raises (codes "timeout");
     agent_run := fun _ _ _ _ => Raises (codes "401");
     datetime_now := fun t => length t |}.

(** An environment whose search endpoint times out. *)
Definition failing_env : env :=
  {| requests_post := fun _ _ _ _ _ => HttpRequestException (codes "timed out");
     gpt4_invoke := fun _ _ _ => Returns (codes "text");
     sutra_invoke := fun _ _ _ => Returns (codes "texte (traduit)");
     agent_run := fun _ _ _ _ => Returns (codes "created");
     datetime_now := fun t => length t |}.

(** [demo_results] with further hits after the ones that are read, and a
    field the generator does not look at. *)
Definition demo_results_more : content_data :=
  {[ "organic"%string := replicate 10 (demo_hit "Agentic AI") ++ [demo_hit "Eleventh"];
     "news"%string := replicate 3 (demo_hit "Frameworks") ++ [demo_hit "Fourth"];
     "peopleAlsoAsk"%string := [demo_hit "What is an agent?"] ]}.

(** [demo_ui] with the OpenAI key left empty. *)
Definition demo_ui_no_openai : widgets :=
  {| serper_api_key := serper_api_key demo_ui;
     openai_api_key := [];
     composio_api_key := composio_api_key demo_ui;
     sutra_api_key := sutra_api_key demo_ui;
     linkedin_author_urn := linkedin_author_urn demo_ui;
     selected_language := selected_language demo_ui;
     search_type := search_type demo_ui;
     num_results := num_results demo_ui;
     search_query := search_query demo_ui;
     custom_prompt := custom_prompt demo_ui |}.

(** What a stored draft of turn [i] carries besides its content. *)
Definition labelled (ui : widgets) (i : nat) (p : post) : Prop :=
  variation p = variation_label i
  ∧ language p = clean_text_content (selected_language ui)
  ∧ well_formed p.

(** Unfolds the monad and the record updates of one handler step. *)
Ltac run_monad :=
  unfold mbind, M_bind, mret, M_ret, emit, modify, get_world, raise,
    call_agent, call_gpt4, call_sutra, call_requests_post;
  cbn [fst snd trace search_cache timer generated_posts search_results
       set_trace set_search_cache set_timer set_generated_posts
       set_search_results negb].

(** * Properties of the sanitizer *)

#[local] Arguments codes : simpl never.
#[local] Arguments clean_text_content : simpl never.
#[local] Arguments base_prompt : simpl never.
#[local] Arguments task : simpl never.
#[local] Arguments system_message : simpl never.
#[local] Arguments uploaded_html : simpl never.
#[local] Arguments str_of_nat : simpl never.

(** ** The regular expression against the direct scan *)

Lemma match_span_body (s : str) :
  match_here [Star (NotLit RPAREN); One (Lit RPAREN)] s = after_close s.
Proof.
  induction s as [|c s IH]; [reflexivity|].
  simpl in *. destruct (c =? RPAREN); simpl; [reflexivity|].
  rewrite IH. destruct (after_close s); reflexivity.
Qed.

Lemma match_paren_span (s : str) :
  match_here paren_span s =
  match s with
  | c :: s' => if c =? LPAREN then after_close s' else None
  | [] => None
  end.
Proof.
  destruct s as [|c s]; [reflexivity|].
  unfold paren_span. cbn [match_here atom_matches].
  destruct (c =? LPAREN); [apply match_span_body | reflexivity].
Qed.

Lemma after_close_length (s rest : str) :
  after_close s = Some rest → (length rest < length s)%nat.
Proof.
  revert rest. induction s as [|c s IH]; intros rest; simpl; [discriminate|].
  destruct (c =? RPAREN).
  - intros [= <-]. lia.
  - intros H. apply IH in H. lia.
Qed.

Lemma after_close_drop (s rest : str) :
  after_close s = Some rest → drop (length s - length rest) s = rest.
Proof.
  revert rest. induction s as [|c s IH]; intros rest; simpl; [discriminate|].
  destruct (c =? RPAREN).
  - intros [= <-]. replace (S (length s) - length s)%nat with 1%nat by lia.
    reflexivity.
  - intros H. pose proof (after_close_length _ _ H) as Hlt.
    replace (S (length s) - length rest)%nat
      with (S (length s - length rest)) by lia.
    simpl. auto.
Qed.

Lemma has_close_after (s : str) :
  has_close s = true ↔ is_Some (after_close s).
Proof.
  unfold has_close. induction s as [|c s IH]; cbn [existsb after_close].
  - split; [discriminate | intros [? [=]]].
  - rewrite (N.eqb_sym RPAREN c). destruct (c =? RPAREN); simpl; [|exact IH].
    split; eauto.
Qed.

Lemma has_close_none (s : str) :
  has_close s = false ↔ after_close s = None.
Proof.
  pose proof (has_close_after s) as [H1 H2].
  destruct (has_close s), (after_close s) as [r|]; split; try done.
  - intros _. destruct (H1 eq_refl) as [? [=]].
  - intros _. exfalso. discriminate H2. eauto.
Qed.

Lemma re_sub_from_drop (k : nat) (s : str) :
  re_sub_from paren_span [] k s = re_sub paren_span [] (drop k s).
Proof.
  revert s. induction k as [|k IH]; intros s; [reflexivity|].
  destruct s as [|c s]; [reflexivity|]. simpl. apply IH.
Qed.

Lemma drop_spans_inside (s : str) :
  drop_spans true s =
  match after_close s with
  | Some rest => drop_spans false rest
  | None => []
  end.
Proof.
  induction s as [|c s IH]; [reflexivity|].
  simpl. destruct (c =? RPAREN); simpl; [reflexivity | exact IH].
Qed.

Lemma re_sub_cons (c : N) (s : str) :
  re_sub paren_span [] (c :: s) =
  match (if c =? LPAREN then after_close s else None) with
  | Some rest => re_sub paren_span [] rest
  | None => c :: re_sub paren_span [] s
  end.
Proof.
  unfold re_sub at 1. cbn [re_sub_from]. rewrite match_paren_span.
  destruct (c =? LPAREN); [|reflexivity].
  destruct (after_close s) as [rest|] eqn:Hc; [|reflexivity].
  pose proof (after_close_length _ _ Hc) as Hlt.
  replace (length (c :: s) - length rest)%nat
    with (S (length s - length rest)) by (simpl; lia).
  cbn [app]. rewrite re_sub_from_drop. f_equal. by apply after_close_drop.
Qed.

(** The regular expression removes exactly the spans of the direct scan. *)
Lemma re_sub_drop_spans (s : str) :
  re_sub paren_span [] s = drop_spans false s.
Proof.
  remember (length s) as n eqn:Hn. revert s Hn.
  induction n as [n IH] using lt_wf_ind; intros s ->.
  destruct s as [|c s]; [reflexivity|].
  rewrite re_sub_cons. cbn [drop_spans].
  destruct (c =? LPAREN); cbn [andb].
  - destruct (after_close s) as [rest|] eqn:Hc.
    + assert (has_close s = true) as -> by (apply has_close_after; eauto).
      rewrite drop_spans_inside, Hc.
      apply (IH (length rest)); [|reflexivity].
      apply after_close_length in Hc. simpl. lia.
    + assert (has_close s = false) as -> by (by apply has_close_none).
      f_equal. apply (IH (length s)); [simpl; lia | reflexivity].
  - f_equal. apply (IH (length s)); [simpl; lia | reflexivity].
Qed.

(** ** Whitespace *)

Lemma lstrip_blank (l x : str) : blank l → lstrip (l ++ x) = lstrip x.
Proof.
  induction 1 as [|c l Hc _ IH]; [reflexivity|].
  simpl. by rewrite Hc.
Qed.

Lemma lstrip_blank_nil (l : str) : blank l → lstrip l = [].
Proof.
  intros H. rewrite <- (app_nil_r l). by rewrite lstrip_blank.
Qed.

Lemma rstrip_blank_nil (r : str) : blank r → rstrip r = [].
Proof.
  induction 1 as [|c r Hc _ IH]; [reflexivity|].
  simpl. by rewrite IH, Hc.
Qed.

Lemma rstrip_blank (x r : str) : blank r → rstrip (x ++ r) = rstrip x.
Proof.
  intros Hr. induction x as [|c x IH]; simpl.
  - by apply rstrip_blank_nil.
  - by rewrite IH.
Qed.

Lemma lstrip_app_blank (m r : str) :
  blank r → ∃ r', blank r' ∧ lstrip (m ++ r) = lstrip m ++ r'.
Proof.
  intros Hr. induction m as [|c m IH]; simpl.
  - exists []. split; [constructor | by apply lstrip_blank_nil].
  - destruct (isspace c); [exact IH|]. by exists r.
Qed.

Lemma strip_pad (l m r : str) :
  blank l → blank r → strip (l ++ m ++ r) = strip m.
Proof.
  intros Hl Hr. unfold strip. rewrite lstrip_blank by done.
  destruct (lstrip_app_blank m r Hr) as (r' & Hr' & ->).
  by apply rstrip_blank.
Qed.

Lemma lstrip_snoc_nil (l : str) (c : N) :
  lstrip l = [] → lstrip (l ++ [c]) = if isspace c then [] else [c].
Proof.
  induction l as [|d l IH]; simpl; [done|].
  destruct (isspace d); [exact IH | discriminate].
Qed.

Lemma lstrip_snoc_cons (l : str) (c : N) :
  lstrip l ≠ [] → lstrip (l ++ [c]) = lstrip l ++ [c].
Proof.
  induction l as [|d l IH]; simpl; [done|].
  destruct (isspace d); [exact IH | reflexivity].
Qed.

(** [rstrip] is [lstrip] seen from the other end. *)
Lemma rstrip_rev (s : str) : rstrip s = rev (lstrip (rev s)).
Proof.
  induction s as [|c s IH]; [reflexivity|].
  assert (lstrip (rev s) = rev (rstrip s)) as Hl
    by (by rewrite IH, rev_involutive).
  cbn [rstrip rev]. destruct (rstrip s) as [|d r] eqn:Hr.
  - rewrite lstrip_snoc_nil by done. by destruct (isspace c).
  - rewrite lstrip_snoc_cons, Hl.
    + by rewrite rev_app_distr, rev_involutive.
    + rewrite Hl. simpl. by destruct (rev r).
Qed.

Lemma trim_strip (s : str) : trim s = strip s.
Proof. unfold trim, strip. by rewrite rstrip_rev. Qed.

Lemma starts_word_split (s : str) :
  starts_word s = true → ∃ w ws, split s = w :: ws.
Proof.
  destruct s as [|c s]; [discriminate|]. simpl.
  destruct (isspace c); [discriminate|]. intros _.
  destruct (starts_word s); [|eauto].
  destruct (split s); simpl; eauto.
Qed.

Lemma join_push_head (sep : str) (c : N) (w : str) (ws : list str) :
  join sep (push_head c (w :: ws)) = c :: join sep (w :: ws).
Proof. by destruct ws. Qed.

Lemma starts_word_space (s : str) :
  starts_word s = false → s ≠ [] → starts_space s = true.
Proof.
  destruct s as [|c s]; [done|]. simpl. by destruct (isspace c).
Qed.

Lemma split_nil_or_starts (s : str) :
  starts_word s = false → split s ≠ [] → starts_space s = true.
Proof.
  intros Hw Hs. apply starts_word_space; [done|]. by intros ->.
Qed.

Lemma blank_lead (s : str) : blank (lead s).
Proof.
  unfold lead. destruct (starts_space s); repeat constructor.
Qed.

(** Collapsing runs gives the words joined by single spaces, with at most a
    blank margin on either side. *)
Lemma collapse_join (t : str) :
  ∃ r, blank r ∧
       collapse_whitespace t = lead t ++ join [SPACE] (split t) ++ r.
Proof.
  induction t as [|c t (r & Hr & IH)].
  - exists []. split; [constructor | reflexivity].
  - unfold lead in *. simpl. destruct (isspace c) eqn:Hc.
    + exists r. split; [done|].
      destruct (starts_space t); rewrite IH; reflexivity.
    + destruct (starts_word t) eqn:Hw.
      * destruct (starts_word_split t Hw) as (w & ws & Hs).
        assert (starts_space t = false) as Hsp.
        { destruct t as [|d t]; [done|]. simpl in *. by destruct (isspace d). }
        rewrite Hsp in IH. exists r. split; [done|].
        rewrite IH, Hs, join_push_head. reflexivity.
      * destruct (split t) as [|w ws] eqn:Hs.
        -- exists ((if starts_space t then [SPACE] else []) ++ r).
           split; [apply Forall_app; split; [apply blank_lead | done]|].
           rewrite IH. reflexivity.
        -- rewrite (split_nil_or_starts t Hw) in IH by (by rewrite Hs).
           exists r. split; [done|]. rewrite IH. reflexivity.
Qed.

(** ** Parentheses *)

Lemma remove_both_parens (u : str) :
  remove_char RPAREN (remove_char LPAREN u) = strip_parens u.
Proof.
  unfold remove_char, strip_parens.
  induction u as [|c u IH]; [reflexivity|]. simpl.
  destruct (c =? LPAREN); simpl; [exact IH|].
  destruct (c =? RPAREN); simpl; [exact IH | by rewrite IH].
Qed.

Lemma isspace_not_paren (c : N) :
  isspace c = true → (c =? LPAREN) || (c =? RPAREN) = false.
Proof.
  intros H.
  destruct (N.eqb_spec c LPAREN) as [->|_]; [discriminate H|].
  destruct (N.eqb_spec c RPAREN) as [->|_]; [discriminate H|].
  reflexivity.
Qed.

Lemma strip_parens_blank (l : str) : blank l → strip_parens l = l.
Proof.
  induction 1 as [|c l Hc _ IH]; [reflexivity|].
  unfold strip_parens in *. simpl.
  by rewrite (isspace_not_paren c Hc), IH.
Qed.

Lemma strip_parens_app (a b : str) :
  strip_parens (a ++ b) = strip_parens a ++ strip_parens b.
Proof. apply List.filter_app. Qed.

(** ** The code against the pipeline of the specification *)

Lemma clean_text_content_pipeline (c : N) (t : str) :
  clean_text_content (c :: t) =
  trim (strip_parens (collapse_whitespace (drop_spans false (c :: t)))).
Proof.
  unfold clean_text_content. cbn [truthy negb].
  rewrite re_sub_drop_spans, remove_both_parens, trim_strip.
  set (u := drop_spans false (c :: t)).
  destruct (collapse_join u) as (r & Hr & ->).
  rewrite !strip_parens_app.
  rewrite (strip_parens_blank _ (blank_lead u)), (strip_parens_blank r Hr).
  symmetry. apply strip_pad; [apply blank_lead | done].
Qed.

(** C7. For every input, [clean_text_content] is the four passes of the
    specification in their order: drop every shortest span from a [(] to the
    next [)], collapse every whitespace run (newlines and tabs included) to
    one space, strip the stray [(] and [)] that remain, trim both ends; an
    empty or null input is returned unchanged.  The five sample values of
    the specification are reproduced. *)
Theorem C7_sanitize_pipeline :
  (∀ text : option str, clean_text_content_nullable text = sanitize_spec text)
  ∧ clean_text_content_nullable None = None
  ∧ clean_text_content [] = []
  ∧ clean_text_content (codes "Hello (world) there") = codes "Hello there"
  ∧ clean_text_content (codes "a(b)c(d)e") = codes "ace"
  ∧ clean_text_content (codes "no parens") = codes "no parens"
  ∧ clean_text_content (codes "a" ++ [LF; LF] ++ codes "  b" ++ [9] ++ codes "c")
    = codes "a b c".
Proof.
  split; [|repeat split; reflexivity].
  intros [[|c t]|]; [reflexivity | | reflexivity].
  unfold clean_text_content_nullable, sanitize_spec.
  by rewrite clean_text_content_pipeline.
Qed.

(** * Properties of the services *)

Lemma emitted_app (w w' : world) (l : list event) :
  trace w' = trace w ++ l → emitted w w' = l.
Proof. unfold emitted. intros ->. by rewrite drop_app_length. Qed.

Lemma emitted_set_trace (w : world) (l : list event) :
  emitted w (set_trace (trace w ++ l) w) = l.
Proof. by apply emitted_app. Qed.

Lemma emitted_same (w : world) : emitted w w = [].
Proof. apply emitted_app. by rewrite app_nil_r. Qed.

(** ** The content summary *)

Lemma summarize_step (s : str) (l : list str) (it : gmap string str) :
  summarize (s, l) it = (s ++ summary_line it, l ++ item_links it).
Proof.
  unfold summarize, summary_line, item_links.
  destruct (truthy (default [] (it !! "link"%string)));
    by rewrite ?app_nil_r.
Qed.

Lemma fold_summarize (items : list (gmap string str)) (s : str) (l : list str) :
  fold_left summarize items (s, l) =
  (s ++ concat (map summary_line items), l ++ concat (map item_links items)).
Proof.
  revert s l. induction items as [|it items IH]; intros s l.
  - simpl. by rewrite !app_nil_r.
  - cbn [fold_left map concat]. rewrite summarize_step, IH.
    by rewrite <- !app_assoc.
Qed.

Lemma extract_spec (data : content_data) :
  extract data =
  (concat (map summary_line (used_items data)),
   concat (map item_links (used_items data))).
Proof.
  unfold extract, used_items.
  destruct (data !! "organic"%string) as [organic|];
    destruct (data !! "news"%string) as [news|]; simpl;
    rewrite ?fold_summarize, ?map_app, ?concat_app, ?app_nil_r; reflexivity.
Qed.

(** ** Closed forms of the wrappers *)

Lemma generate_linkedin_post_run (E : env) (data : content_data)
    (custom_prompt api_key target_language : str) (w : world) :
  truthy api_key = true →
  generate_linkedin_post E data custom_prompt api_key target_language w =
  let prompt := base_prompt (strip target_language)
                  (extract data).1 (extract data).2 custom_prompt in
  (Done match gpt4_invoke E (trace w) api_key prompt with
        | Returns response => Value (clean_text_content response)
        | Raises e => Error (codes "Post generation failed: " ++ e)
        end,
   set_trace (trace w ++ [Gpt4Invoke api_key prompt]) w).
Proof.
  intros Hk. unfold generate_linkedin_post. rewrite Hk. cbn [negb].
  destruct (extract data) as [summary links]. cbn [fst snd].
  unfold mbind, M_bind, call_gpt4.
  by destruct (gpt4_invoke E (trace w) api_key _).
Qed.

Lemma generate_variation_run (E : env) (ui : widgets) (results : content_data)
    (acc : list post) (i : nat) (w : world) :
  truthy (openai_api_key ui) = true →
  generate_variation E ui results acc i w =
  let request := Gpt4Invoke (openai_api_key ui) (variation_request ui results i) in
  (Done (acc ++ kept E ui i (trace w ++ [request])
                  (gpt4_invoke E (trace w) (openai_api_key ui)
                     (variation_request ui results i))),
   set_trace (trace w ++ [request]) w).
Proof.
  intros Hk. unfold generate_variation.
  unfold mbind, M_bind at 1. rewrite generate_linkedin_post_run by done.
  cbn zeta. fold (variation_request ui results i).
  destruct (gpt4_invoke E (trace w) _ _) as [response|e]; cbn [kept].
  - destruct (truthy (clean_text_content response)).
    + reflexivity.
    + by rewrite app_nil_r.
  - by rewrite app_nil_r.
Qed.

Lemma search_uncached_run (E : env) (query search_type api_key : str)
    (num_results : nat) (w : world) :
  truthy api_key = true →
  search_web_content_uncached E query search_type api_key num_results w =
  let url := codes "https://google.serper.dev/" ++ search_type in
  (search_outcome (requests_post E (trace w) url api_key query num_results),
   set_trace (trace w ++ [HttpPost url api_key query num_results]) w).
Proof.
  intros Hk. unfold search_web_content_uncached. rewrite Hk. cbn [negb].
  unfold mbind, M_bind, call_requests_post. cbn zeta.
  by destruct (requests_post E (trace w) _ api_key query num_results).
Qed.

(** ** The generation loop *)

Lemma kept_content (E : env) (ui : widgets) (i : nat) (t : list event)
    (r : reply str) :
  map content (kept E ui i t r) =
  match stored_content
          match r with
          | Returns response => Value (clean_text_content response)
          | Raises e => Error (codes "Post generation failed: " ++ e)
          end with
  | Some c => [c]
  | None => []
  end.
Proof.
  destruct r as [response|e]; cbn [kept stored_content]; [|reflexivity].
  by destruct (truthy (clean_text_content response)).
Qed.

Lemma kept_drafted (E : env) (ui : widgets) (i : nat) (t t' : list event)
    (api_key prompt : str) :
  Forall (drafted E) (kept E ui i t' (gpt4_invoke E t api_key prompt)).
Proof.
  destruct (gpt4_invoke E t api_key prompt) as [response|e] eqn:Hr;
    cbn [kept]; [|constructor].
  destruct (truthy (clean_text_content response)); constructor; [|constructor].
  by exists t, api_key, prompt, response.
Qed.

Lemma generation_loop (E : env) (ui : widgets) (results : content_data)
    (turns : list nat) :
  truthy (openai_api_key ui) = true →
  ∀ (acc : list post) (w : world), ∃ new : list post,
    for_each turns (generate_variation E ui results) acc w =
      (Done (acc ++ new),
       set_trace (trace w ++ map (generation_request ui results) turns) w)
    ∧ length (compose_runs E ui results turns w) = length turns
    ∧ map content new = omap stored_content (compose_runs E ui results turns w)
    ∧ Forall (drafted E) new.
Proof.
  intros Hk. induction turns as [|i turns IH]; intros acc w.
  - exists []. cbn [for_each compose_runs map omap length].
    rewrite !app_nil_r. by destruct w.
  - cbn [for_each compose_runs]. unfold mbind, M_bind at 1.
    rewrite generate_variation_run by done.
    rewrite generate_linkedin_post_run by done. cbn zeta.
    fold (variation_request ui results i).
    set (request := Gpt4Invoke (openai_api_key ui) (variation_request ui results i)).
    set (r := gpt4_invoke E (trace w) (openai_api_key ui)
                (variation_request ui results i)).
    destruct (IH (acc ++ kept E ui i (trace w ++ [request]) r)
                 (set_trace (trace w ++ [request]) w))
      as (new & Hrun & Hlen & Hcontent & Hdrafted).
    exists (kept E ui i (trace w ++ [request]) r ++ new).
    rewrite Hrun. cbn [trace set_trace map length].
    fold (generation_request ui results i). fold request.
    repeat split.
    + by rewrite <- !app_assoc.
    + by rewrite Hlen.
    + rewrite map_app, Hcontent, kept_content. cbn [omap list_omap].
      by destruct (stored_content _).
    + apply Forall_app. split; [apply kept_drafted | done].
Qed.

(** ** The cache *)

Lemma search_web_content_unfold (E : env) (query search_type api_key : str)
    (num_results : nat) (w : world) :
  search_web_content E query search_type api_key num_results w =
  let key := (query, search_type, api_key, num_results) in
  match cached w key with
  | Some v => (Done v, w)
  | None =>
      match search_web_content_uncached E query search_type api_key num_results w with
      | (Done v, w') =>
          (Done v,
           set_search_cache (<[key := (v, (timer w' + ttl)%nat)]> (search_cache w')) w')
      | (Uncaught e, w') => (Uncaught e, w')
      end
  end.
Proof.
  unfold search_web_content, cached. cbn zeta.
  destruct (search_cache w !! _) as [[v expires]|]; [|reflexivity].
  by destruct (timer w <? expires)%nat.
Qed.

(** What a call changes: the trace grows by at most the one request, the
    cache changes at most at the key of the call, session state and timer
    stay. *)
Lemma search_web_content_frame (E : env) (query search_type api_key : str)
    (num_results : nat) (w : world) :
  let key := (query, search_type, api_key, num_results) in
  let w' := (search_web_content E query search_type api_key num_results w).2 in
  generated_posts w' = generated_posts w
  ∧ search_results w' = search_results w
  ∧ timer w' = timer w
  ∧ (∀ key', key' ≠ key → search_cache w' !! key' = search_cache w !! key')
  ∧ (trace w' = trace w
     ∨ trace w' = trace w ++ [HttpPost (codes "https://google.serper.dev/" ++ search_type)
                                api_key query num_results]).
Proof.
  cbn zeta. rewrite search_web_content_unfold. cbn zeta.
  destruct (cached w _) as [v|]; [cbn; repeat split; auto|].
  destruct (truthy api_key) eqn:Hk.
  - rewrite search_uncached_run by done. cbn zeta.
    destruct (search_outcome _) as [v|e]; cbn;
      repeat split; auto; intros key' Hne; by rewrite lookup_insert_ne.
  - unfold search_web_content_uncached. rewrite Hk. cbn.
    repeat split; auto; intros key' Hne; by rewrite lookup_insert_ne.
Qed.

Lemma search_web_content_cache_ok (E : env) (query search_type api_key : str)
    (num_results : nat) (w : world) :
  cache_ok w →
  cache_ok (search_web_content E query search_type api_key num_results w).2.
Proof.
  intros Hok. rewrite search_web_content_unfold. cbn zeta.
  destruct (cached w _) as [v|]; [done|].
  destruct (truthy api_key) eqn:Hk.
  - rewrite search_uncached_run by done. cbn zeta.
    destruct (search_outcome _) as [v|e]; cbn; [|done].
    intros q m n v' e'. cbn. rewrite lookup_insert_ne; [apply Hok|].
    intros [= _ _ -> _]. discriminate Hk.
  - unfold search_web_content_uncached. rewrite Hk. cbn.
    intros q m n v' e'. cbn.
    destruct (decide ((query, search_type, api_key, num_results) = (q, m, [], n)))
      as [->|Hne].
    + rewrite lookup_insert_eq. by intros [= <- _].
    + rewrite lookup_insert_ne by done. apply Hok.
Qed.

(** ** The search handler *)

Lemma on_search_generates (E : env) (ui : widgets) (w w0 : world)
    (results : content_data) :
  truthy (search_query ui) = true →
  truthy (serper_api_key ui) = true →
  truthy (openai_api_key ui) = true →
  search_web_content E (search_query ui) (search_type ui)
    (serper_api_key ui) (num_results ui) w = (Done (Value results), w0) →
  let w1 := set_search_results (Some results) w0 in
  ∃ new : list post,
    on_search E ui w =
      (Done tt,
       set_trace (trace w0 ++ map (generation_request ui results) [0; 1; 2]%nat
                  ++ [report ui new])
         (set_generated_posts new w1))
    ∧ length (compose_runs E ui results [0; 1; 2]%nat w1) = 3%nat
    ∧ map content new = omap stored_content (compose_runs E ui results [0; 1; 2]%nat w1)
    ∧ Forall (drafted E) new.
Proof.
  intros Hq Hs Ho Hsearch w1.
  destruct (generation_loop E ui results [0; 1; 2]%nat Ho [] w1)
    as (new & Hrun & Hlen & Hcontent & Hdrafted).
  exists new. split; [|by auto].
  unfold on_search. rewrite Hq, Hs, Ho. cbn [negb].
  unfold mbind, M_bind at 1. rewrite Hsearch.
  unfold mbind, M_bind at 1. unfold modify at 1.
  unfold mbind, M_bind at 1. change (seq 0 3) with [0; 1; 2]%nat.
  fold w1. rewrite Hrun. cbn [app].
  unfold mbind, M_bind, modify, emit, report.
  unfold set_trace, set_generated_posts, w1, set_search_results.
  destruct (truthy new); cbn; by rewrite <- app_assoc.
Qed.

(** ** The session invariant *)

Lemma on_copy_run (i : nat) (edited_content : str) (w : world) :
  on_copy i edited_content w =
  match generated_posts w !! i with
  | Some _ =>
      (Done tt,
       set_trace (trace w ++
                  [StCode (clean_text_content edited_content);
                   StSuccess ([9989] ++ codes " Post copied! You can now paste it anywhere.")])
         w)
  | None => (Done tt, w)
  end.
Proof.
  unfold on_copy. run_monad.
  destruct (generated_posts w !! i); [|reflexivity].
  run_monad. by rewrite <- app_assoc.
Qed.

Lemma upload_to_linkedin_run (E : env) (openai_key post_content author_urn api_key : str)
    (w : world) :
  truthy api_key = true →
  upload_to_linkedin E openai_key post_content author_urn api_key w =
  (Done match agent_run E (trace w) openai_key api_key (task post_content author_urn) with
        | Returns result => Value result
        | Raises e => Error (codes "LinkedIn upload failed: " ++ e)
        end,
   set_trace (trace w ++ [AgentRun openai_key api_key (task post_content author_urn)]) w).
Proof.
  intros Hk. unfold upload_to_linkedin. rewrite Hk. run_monad.
  by destruct (agent_run E (trace w) openai_key api_key _).
Qed.

Lemma on_upload_run (E : env) (ui : widgets) (i : nat) (edited_content : str)
    (w : world) :
  on_upload E ui i edited_content w =
  match generated_posts w !! i with
  | None => (Done tt, w)
  | Some post_data =>
      if negb (truthy (composio_api_key ui)) then
        (Done tt,
         set_trace (trace w ++
           [StError (codes "Please provide Composio API key in the sidebar")]) w)
      else if negb (truthy (linkedin_author_urn ui)) then
        (Done tt,
         set_trace (trace w ++
           [StError (codes "Please provide LinkedIn Author URN in the sidebar")]) w)
      else
        let request :=
          AgentRun (openai_api_key ui) (composio_api_key ui)
            (task (clean_text_content edited_content) (linkedin_author_urn ui)) in
        (Done tt,
         set_trace (trace w ++
           [request;
            match agent_run E (trace w) (openai_api_key ui) (composio_api_key ui)
                    (task (clean_text_content edited_content) (linkedin_author_urn ui)) with
            | Returns _ =>
                StMarkdown (uploaded_html (clean_text_content (language post_data)))
            | Raises e =>
                StError (codes "Upload failed: " ++ (codes "LinkedIn upload failed: " ++ e))
            end]) w)
  end.
Proof.
  unfold on_upload. run_monad.
  destruct (generated_posts w !! i) as [post_data|]; [|reflexivity].
  destruct (truthy (composio_api_key ui)) eqn:Hc; cbn [negb]; [|reflexivity].
  destruct (truthy (linkedin_author_urn ui)) eqn:Hu; cbn [negb]; [|reflexivity].
  rewrite upload_to_linkedin_run by done. cbn zeta.
  destruct (agent_run E (trace w) _ _ _); run_monad; by rewrite <- app_assoc.
Qed.

Lemma on_search_session_ok (E : env) (ui : widgets) (w : world) :
  session_ok E w → session_ok E (on_search E ui w).2.
Proof.
  intros [Hposts Hcache].
  destruct (truthy (search_query ui)) eqn:Hq;
    [|unfold on_search; rewrite Hq; by split].
  destruct (truthy (serper_api_key ui)) eqn:Hs;
    [|unfold on_search; rewrite Hq, Hs; by split].
  destruct (truthy (openai_api_key ui)) eqn:Ho;
    [|unfold on_search; rewrite Hq, Hs, Ho; by split].
  pose proof (search_web_content_frame E (search_query ui) (search_type ui)
                (serper_api_key ui) (num_results ui) w) as Hframe.
  pose proof (search_web_content_cache_ok E (search_query ui) (search_type ui)
                (serper_api_key ui) (num_results ui) w Hcache) as Hcache'.
  cbn zeta in Hframe.
  destruct (search_web_content E (search_query ui) (search_type ui)
              (serper_api_key ui) (num_results ui) w) as [[[results|e]|e] w0] eqn:Hsearch;
    cbn [snd] in Hframe, Hcache'; destruct Hframe as (Hp & _).
  - destruct (on_search_generates E ui w w0 results Hq Hs Ho Hsearch)
      as (new & -> & _ & _ & Hnew).
    by split.
  - unfold on_search. rewrite Hq, Hs, Ho. run_monad. rewrite Hsearch.
    run_monad. split; [cbn [generated_posts set_trace]; by rewrite Hp | done].
  - unfold on_search. rewrite Hq, Hs, Ho. run_monad. rewrite Hsearch.
    split; [cbn; by rewrite Hp | done].
Qed.

Lemma step_session_ok (E : env) (w w' : world) :
  step E w w' → session_ok E w → session_ok E w'.
Proof.
  intros [ui w0|i edited w0|ui i edited w0|w0|n w0] Hok.
  - by apply on_search_session_ok.
  - rewrite on_copy_run. by destruct (generated_posts w0 !! i).
  - rewrite on_upload_run.
    destruct (generated_posts w0 !! i); [|done].
    destruct (negb (truthy (composio_api_key ui))); [done|].
    by destruct (negb (truthy (linkedin_author_urn ui))).
  - destruct Hok as [_ Hcache]. split; [constructor | done].
  - done.
Qed.

Lemma reachable_session_ok (E : env) (w : world) :
  reachable E w → session_ok E w.
Proof.
  unfold reachable. revert w. apply rtc_ind_r.
  - split; [constructor|]. intros q m n v e. cbn.
    by rewrite lookup_empty.
  - intros w1 w2 _ Hstep IH. by apply (step_session_ok E w1).
Qed.

(** ** What the sanitizer leaves in a text *)

Lemma lstrip_elem (s : str) (c : N) : c ∈ lstrip s → c ∈ s.
Proof.
  induction s as [|d s IH]; simpl; [done|].
  destruct (isspace d); [|done]. intros H. right. by apply IH.
Qed.

Lemma rstrip_elem (s : str) (c : N) : c ∈ rstrip s → c ∈ s.
Proof.
  induction s as [|d s IH]; simpl; [done|].
  destruct (rstrip s) as [|e r].
  - destruct (isspace d); [by intros ?%elem_of_nil|].
    intros ->%list_elem_of_singleton. left.
  - intros [->|H]%elem_of_cons; [left | right; by apply IH].
Qed.

Lemma strip_elem (s : str) (c : N) : c ∈ strip s → c ∈ s.
Proof. intros H. by apply lstrip_elem, rstrip_elem. Qed.

Lemma strip_parens_elem (s : str) (c : N) :
  c ∈ strip_parens s ↔ c ∈ s ∧ c ≠ LPAREN ∧ c ≠ RPAREN.
Proof.
  unfold strip_parens. rewrite !list_elem_of_In, List.filter_In.
  rewrite negb_true_iff, orb_false_iff, !N.eqb_neq. tauto.
Qed.

Lemma clean_text_content_no_parens (text : str) :
  no_parens (clean_text_content text).
Proof.
  unfold clean_text_content, no_parens.
  destruct text as [|c t]; cbn [truthy negb].
  - split; apply not_elem_of_nil.
  - rewrite remove_both_parens.
    split; intros H%strip_elem%strip_parens_elem; tauto.
Qed.

Lemma split_words (s : str) (w : str) (c : N) :
  w ∈ split s → c ∈ w → isspace c = false.
Proof.
  revert w. induction s as [|d s IH]; intros w; simpl; [by intros ?%elem_of_nil|].
  destruct (isspace d) eqn:Hd; [apply IH|].
  destruct (starts_word s).
  - destruct (split s) as [|v vs]; simpl.
    + intros ->%list_elem_of_singleton ->%list_elem_of_singleton. done.
    + intros [->|Hw]%elem_of_cons.
      * intros [->|Hc]%elem_of_cons; [done|]. apply (IH v); [left | done].
      * apply IH. by right.
  - intros [->|Hw]%elem_of_cons.
    + by intros ->%list_elem_of_singleton.
    + by apply IH.
Qed.

Lemma join_elem (sep : str) (ws : list str) (c : N) :
  c ∈ join sep ws → c ∈ sep ∨ ∃ w, w ∈ ws ∧ c ∈ w.
Proof.
  induction ws as [|w ws IH]; [by intros ?%elem_of_nil|].
  cbn [join]. destruct ws as [|v vs].
  - intros H. right. exists w. split; [left | done].
  - intros [H|[H|H]%elem_of_app]%elem_of_app.
    + right. exists w. split; [left | done].
    + by left.
    + destruct (IH H) as [?|(u & Hu & Hc)]; [by left|].
      right. exists u. split; [by right | done].
Qed.

Lemma clean_text_content_tidy (text : str) : tidy (clean_text_content text).
Proof.
  unfold clean_text_content, tidy. intros c.
  destruct text as [|d t]; cbn [truthy negb]; [by intros ?%elem_of_nil|].
  rewrite remove_both_parens.
  intros [H _]%strip_elem%strip_parens_elem Hc.
  apply join_elem in H as [->%list_elem_of_singleton|(w & Hw & Hcw)]; [done|].
  by rewrite (split_words _ w c Hw Hcw) in Hc.
Qed.

Lemma drafted_no_parens (E : env) (p : post) :
  drafted E p → no_parens (content p).
Proof.
  intros (t & k & prompt & response & _ & ->).
  apply clean_text_content_no_parens.
Qed.

(** ** Sanitizing again *)

Lemma split_all_words (s : str) : Forall word (split s).
Proof.
  induction s as [|c s IH]; simpl; [constructor|].
  destruct (isspace c) eqn:Hc; [done|].
  destruct (starts_word s).
  - destruct IH as [|w ws [Hne Hw] IH]; simpl.
    + by repeat constructor.
    + constructor; [|done]. split; [done | by constructor].
  - constructor; [|done]. by repeat constructor.
Qed.

Lemma split_word_app (w rest : str) :
  word w → starts_word rest = false → split (w ++ rest) = w :: split rest.
Proof.
  intros [Hne Hw] Hrest. induction Hw as [|c w Hc Hw IH]; [done|].
  cbn [app split]. rewrite Hc. destruct w as [|d w].
  - cbn [app]. by rewrite Hrest.
  - rewrite IH by done. cbn [app starts_word].
    apply Forall_cons_1 in Hw as [-> _]. reflexivity.
Qed.

Lemma starts_word_space_app (s : str) : starts_word (SPACE :: s) = false.
Proof. reflexivity. Qed.

(** Splitting what was joined gives the words back. *)
Lemma split_join (ws : list str) :
  Forall word ws → split (join [SPACE] ws) = ws.
Proof.
  induction 1 as [|w ws Hw Hws IH]; [reflexivity|].
  cbn [join]. destruct ws as [|v vs].
  - rewrite <- (app_nil_r w) at 1. by rewrite split_word_app.
  - rewrite split_word_app by done.
    change ([SPACE] ++ join [SPACE] (v :: vs)) with (SPACE :: join [SPACE] (v :: vs)).
    cbn [split]. change (isspace SPACE) with true. cbn iota. by rewrite IH.
Qed.

Lemma normalize_idempotent (s : str) : normalize (normalize s) = normalize s.
Proof. unfold normalize. by rewrite split_join by apply split_all_words. Qed.

Lemma lstrip_word_app (w rest : str) : word w → lstrip (w ++ rest) = w ++ rest.
Proof.
  intros [Hne Hw]. destruct Hw as [|c w Hc _]; [done|].
  cbn. by rewrite Hc.
Qed.

Lemma rstrip_snoc (x : str) (c : N) :
  isspace c = false → rstrip (x ++ [c]) = x ++ [c].
Proof.
  intros Hc. rewrite rstrip_rev, rev_app_distr. cbn. rewrite Hc.
  cbn. by rewrite rev_involutive.
Qed.

Lemma word_snoc (w : str) : word w → ∃ x c, w = x ++ [c] ∧ isspace c = false.
Proof.
  intros [Hne Hw]. destruct w as [|c x _] using rev_ind; [done|].
  exists x, c. split; [done|].
  apply Forall_app in Hw as [_ Hc]. by apply Forall_cons_1 in Hc as [? _].
Qed.

Lemma join_words_snoc (ws : list str) :
  Forall word ws → ws ≠ [] →
  ∃ x c, join [SPACE] ws = x ++ [c] ∧ isspace c = false.
Proof.
  induction 1 as [|w ws Hw Hws IH]; [done|]. intros _.
  cbn [join]. destruct ws as [|v vs]; [by apply word_snoc|].
  destruct IH as (x & c & -> & Hc); [done|].
  exists (w ++ [SPACE] ++ x), c. by rewrite <- !app_assoc.
Qed.

(** The joined words have no whitespace at either end. *)
Lemma strip_normalize (s : str) : strip (normalize s) = normalize s.
Proof.
  unfold normalize, strip. pose proof (split_all_words s) as Hws.
  destruct (split s) as [|w ws] eqn:Hs; [reflexivity|].
  assert (lstrip (join [SPACE] (w :: ws)) = join [SPACE] (w :: ws)) as ->.
  { cbn [join]. apply Forall_cons_1 in Hws as [Hw _].
    destruct ws; [|by apply lstrip_word_app].
    rewrite <- (app_nil_r w). by apply lstrip_word_app. }
  destruct (join_words_snoc (w :: ws) Hws) as (x & c & -> & Hc); [done|].
  by apply rstrip_snoc.
Qed.

Lemma drop_spans_no_open (s : str) : LPAREN ∉ s → drop_spans false s = s.
Proof.
  induction s as [|c s IH]; [done|]. intros Hnot.
  apply not_elem_of_cons in Hnot as [Hc Hs]. cbn [drop_spans].
  destruct (N.eqb_spec c LPAREN) as [->|_]; [done|].
  cbn [andb]. by rewrite IH.
Qed.

Lemma strip_parens_id (s : str) : no_parens s → strip_parens s = s.
Proof.
  unfold strip_parens. intros [Hl Hr]. induction s as [|c s IH]; [done|].
  apply not_elem_of_cons in Hl as [Hl Hls].
  apply not_elem_of_cons in Hr as [Hr Hrs].
  cbn [List.filter].
  destruct (N.eqb_spec c LPAREN) as [->|_]; [done|].
  destruct (N.eqb_spec c RPAREN) as [->|_]; [done|].
  cbn. by rewrite IH.
Qed.

Lemma split_elem (s w : str) (c : N) : w ∈ split s → c ∈ w → c ∈ s.
Proof.
  revert w. induction s as [|d s IH]; intros w; simpl; [by intros ?%elem_of_nil|].
  destruct (isspace d).
  { intros Hw Hc. right. by apply (IH w). }
  destruct (starts_word s).
  - destruct (split s) as [|v vs]; simpl.
    + intros ->%list_elem_of_singleton ->%list_elem_of_singleton. left.
    + intros [->|Hw]%elem_of_cons.
      * intros [->|Hc]%elem_of_cons; [left|]. right. apply (IH v); [left | done].
      * intros Hc. right. apply (IH w); [by right | done].
  - intros [->|Hw]%elem_of_cons.
    + intros ->%list_elem_of_singleton. left.
    + intros Hc. right. by apply (IH w).
Qed.

Lemma normalize_no_parens (s : str) : no_parens s → no_parens (normalize s).
Proof.
  unfold no_parens, normalize. intros [Hl Hr].
  split; intros [H%list_elem_of_singleton|(w & Hw & Hc)]%join_elem;
    try discriminate H; [apply Hl | apply Hr]; by apply (split_elem s w).
Qed.

(** On a text without parentheses the sanitizer only normalizes the
    whitespace. *)
Lemma clean_text_content_paren_free (s : str) :
  no_parens s → clean_text_content s = normalize s.
Proof.
  intros Hs. destruct s as [|c t]; [reflexivity|].
  unfold clean_text_content. cbn [truthy negb].
  rewrite re_sub_drop_spans, remove_both_parens.
  rewrite drop_spans_no_open by apply Hs.
  rewrite strip_parens_id by (by apply normalize_no_parens).
  apply strip_normalize.
Qed.

(** A second pass normalizes the whitespace of the first; a third pass
    changes nothing. *)
Lemma clean_text_content_settles (s : str) :
  clean_text_content (clean_text_content s) = normalize (clean_text_content s)
  ∧ clean_text_content (clean_text_content (clean_text_content s))
    = clean_text_content (clean_text_content s).
Proof.
  pose proof (clean_text_content_no_parens s) as Hs.
  rewrite (clean_text_content_paren_free _ Hs). split; [done|].
  rewrite clean_text_content_paren_free by (by apply normalize_no_parens).
  apply normalize_idempotent.
Qed.

(** On a text without parentheses the sanitizer is idempotent. *)
Lemma clean_text_content_idempotent_paren_free (s : str) :
  no_parens s →
  clean_text_content (clean_text_content s) = clean_text_content s.
Proof.
  intros Hs. rewrite (clean_text_content_paren_free s Hs).
  rewrite clean_text_content_paren_free by (by apply normalize_no_parens).
  apply normalize_idempotent.
Qed.

(** C6. The sanitizer is not idempotent: on ["a ) b"] the stray [)] is
    removed after the whitespace has been collapsed, which leaves two
    adjacent spaces that only a second pass collapses. *)
Theorem C6_second_pass_differs :
  clean_text_content (codes "a ) b") = codes "a  b"
  ∧ clean_text_content (clean_text_content (codes "a ) b")) = codes "a b"
  ∧ clean_text_content (clean_text_content (codes "a ) b"))
    ≠ clean_text_content (codes "a ) b").
Proof. split; [reflexivity | split; [reflexivity | discriminate]]. Qed.

(** * The output boundary *)

(** C1. In every state a session can reach, each stored draft is the
    sanitized form of a reply of the model; and whatever the user has typed
    into the edit box of a draft, the text shown by "Copy" and the text
    handed to the publishing agent is the sanitized form of the edited
    text, which contains neither [(] nor [)]. *)
Theorem C1_output_boundary_sanitized (E : env) (w : world) :
  reachable E w →
  (∀ p, p ∈ generated_posts w → drafted E p ∧ no_parens (content p))
  ∧ ∀ (ui : widgets) (i : nat) (edited_content : str),
      let cleaned := clean_text_content edited_content in
      no_parens cleaned
      ∧ (∀ body, StCode body ∈ emitted w (on_copy i edited_content w).2 →
                 body = cleaned)
      ∧ (∀ k1 k2 t,
           AgentRun k1 k2 t ∈ emitted w (on_upload E ui i edited_content w).2 →
           t = task cleaned (linkedin_author_urn ui))
      ∧ (is_Some (generated_posts w !! i) →
         StCode cleaned ∈ emitted w (on_copy i edited_content w).2)
      ∧ (is_Some (generated_posts w !! i) →
         truthy (composio_api_key ui) = true →
         truthy (linkedin_author_urn ui) = true →
         AgentRun (openai_api_key ui) (composio_api_key ui)
           (task cleaned (linkedin_author_urn ui))
         ∈ emitted w (on_upload E ui i edited_content w).2).
Proof.
  intros [Hposts _]%reachable_session_ok. split.
  { intros p Hp. rewrite Forall_forall in Hposts.
    split; [by apply Hposts | by apply (drafted_no_parens E), Hposts]. }
  intros ui i edited_content cleaned.
  split; [apply clean_text_content_no_parens|].
  rewrite on_copy_run, on_upload_run.
  destruct (generated_posts w !! i) as [post_data|]; cbn [snd].
  - rewrite emitted_set_trace.
    split; [|split; [|split]].
    + intros body [[= ->]|[?|?%elem_of_nil]%elem_of_cons]%elem_of_cons; done.
    + intros k1 k2 t.
      destruct (truthy (composio_api_key ui)); cbn [negb snd];
        [destruct (truthy (linkedin_author_urn ui)); cbn [negb snd]|];
        rewrite emitted_set_trace.
      * intros [[= _ _ ->]|[H|?%elem_of_nil]%elem_of_cons]%elem_of_cons;
          [done| |done].
        by destruct (agent_run E _ _ _ _).
      * by intros [?|?%elem_of_nil]%elem_of_cons.
      * by intros [?|?%elem_of_nil]%elem_of_cons.
    + intros _. left.
    + intros _ -> ->. cbn [negb snd]. rewrite emitted_set_trace. left.
  - rewrite emitted_same.
    split; [by intros ? ?%elem_of_nil|].
    split; [by intros ? ? ? ?%elem_of_nil|].
    split; by intros [? [=]].
Qed.

Lemma demo_world_reachable : reachable demo_env demo_world.
Proof. apply rtc_once, step_search. Qed.

Lemma C1_witness :
  reachable demo_env demo_world
  ∧ (∀ p, p ∈ generated_posts demo_world →
          drafted demo_env p ∧ no_parens (content p)).
Proof.
  split; [exact demo_world_reachable|].
  exact (proj1 (C1_output_boundary_sanitized demo_env demo_world
                  demo_world_reachable)).
Defined.

(** * Publishing *)

(** C2, as stated, fails: with a Composio key and an author, a draft edited
    down to the empty string is handed to the publishing agent. *)
Lemma C2_empty_content_published :
  is_Some (generated_posts demo_world !! 0%nat)
  ∧ clean_text_content [] = []
  ∧ emitted demo_world (on_upload demo_env demo_ui 0 [] demo_world).2 =
    [AgentRun (codes "openai-key") (codes "composio-key")
       (task [] (codes "urn:li:person:1"));
     StMarkdown (uploaded_html (codes "English"))].
Proof. split; [eexists; vm_compute; reflexivity|]. split; vm_compute; reflexivity. Qed.

(** C2, amended. A publish attempt is rejected with an error message, and
    nothing is sent to the publishing agent, when the Composio key is empty
    (checked first) or the author identity is empty.  The content is not
    checked: with both present the agent is invoked with the sanitized
    content, whatever it is. *)
Theorem C2_publish_guards (E : env) (ui : widgets) (i : nat)
    (edited_content : str) (w : world) :
  is_Some (generated_posts w !! i) →
  let sent := emitted w (on_upload E ui i edited_content w).2 in
  (truthy (composio_api_key ui) = false →
   sent = [StError (codes "Please provide Composio API key in the sidebar")])
  ∧ (truthy (composio_api_key ui) = true →
     truthy (linkedin_author_urn ui) = false →
     sent = [StError (codes "Please provide LinkedIn Author URN in the sidebar")])
  ∧ (truthy (composio_api_key ui) = true →
     truthy (linkedin_author_urn ui) = true →
     ∃ shown,
       sent = [AgentRun (openai_api_key ui) (composio_api_key ui)
                 (task (clean_text_content edited_content) (linkedin_author_urn ui));
               shown]
       ∧ is_network shown = false).
Proof.
  intros [post_data Hpost]. cbn zeta. rewrite on_upload_run, Hpost.
  repeat split.
  - intros ->. cbn [negb snd]. by rewrite emitted_set_trace.
  - intros -> ->. cbn [negb snd]. by rewrite emitted_set_trace.
  - intros -> ->. cbn [negb snd]. rewrite emitted_set_trace.
    eexists. split; [reflexivity|]. by destruct (agent_run E _ _ _ _).
Qed.

Lemma C2_witness :
  is_Some (generated_posts demo_world !! 0%nat)
  ∧ emitted demo_world
      (on_upload demo_env demo_ui_no_author 0 (codes "text") demo_world).2
    = [StError (codes "Please provide LinkedIn Author URN in the sidebar")].
Proof.
  assert (is_Some (generated_posts demo_world !! 0%nat)) as H
    by (eexists; vm_compute; reflexivity).
  split; [exact H|].
  exact (proj1 (proj2 (C2_publish_guards demo_env demo_ui_no_author 0
                         (codes "text") demo_world H))
           eq_refl eq_refl).
Defined.

(** * The search cache *)

Lemma search_web_content_miss (E : env) (query search_type api_key : str)
    (num_results : nat) (w : world) :
  truthy api_key = true →
  cached w (query, search_type, api_key, num_results) = None →
  search_web_content E query search_type api_key num_results w =
  let url := codes "https://google.serper.dev/" ++ search_type in
  let w' := set_trace (trace w ++ [HttpPost url api_key query num_results]) w in
  match search_outcome (requests_post E (trace w) url api_key query num_results) with
  | Done v =>
      (Done v,
       set_search_cache
         (<[(query, search_type, api_key, num_results) := (v, (timer w + ttl)%nat)]>
            (search_cache w)) w')
  | Uncaught e => (Uncaught e, w')
  end.
Proof.
  intros Hk Hmiss. rewrite search_web_content_unfold. cbn zeta.
  rewrite Hmiss, search_uncached_run by done. cbn zeta.
  by destruct (search_outcome _).
Qed.

Lemma search_web_content_hit (E : env) (query search_type api_key : str)
    (num_results : nat) (w : world) (v : ret content_data) :
  cached w (query, search_type, api_key, num_results) = Some v →
  search_web_content E query search_type api_key num_results w = (Done v, w).
Proof.
  intros Hhit. rewrite search_web_content_unfold. cbn zeta. by rewrite Hhit.
Qed.



(** The first search of the sample session, and the state it leaves. *)
Lemma demo_search_run :
  search_web_content demo_env (search_query demo_ui) (search_type demo_ui)
    (serper_api_key demo_ui) (num_results demo_ui) initial_world
  = (Done (Value demo_results),
     (search_web_content demo_env (search_query demo_ui) (search_type demo_ui)
        (serper_api_key demo_ui) (num_results demo_ui) initial_world).2).
Proof. rewrite search_web_content_miss by reflexivity. reflexivity. Qed.



(** * The three variants *)

Lemma omap_stored_length (runs : list (ret str)) :
  length (omap stored_content runs) = length (List.filter with_content runs).
Proof.
  induction runs as [|[c|e] runs IH]; cbn; [done| |done].
  destruct (truthy c); cbn; by rewrite IH.
Qed.

Lemma omap_stored_truthy (runs : list (ret str)) :
  truthy (omap stored_content runs) = existsb with_content runs.
Proof.
  induction runs as [|[c|e] runs IH]; cbn; [done| |done].
  by destruct (truthy c).
Qed.

Lemma truthy_map {A B} (f : A → B) (l : list A) : truthy (map f l) = truthy l.
Proof. by destruct l. Qed.

Lemma is_success_report (ui : widgets) (ps : list post) :
  is_success (report ui ps) = truthy ps.
Proof. unfold report. by destruct (truthy ps). Qed.

Lemma filter_gpt4_round (ui : widgets) (results : content_data)
    (turns : list nat) (ps : list post) :
  List.filter is_gpt4 (map (generation_request ui results) turns ++ [report ui ps])
  = map (generation_request ui results) turns.
Proof.
  induction turns as [|i turns IH]; cbn.
  - unfold report. by destruct (truthy ps).
  - by rewrite IH.
Qed.

(** C4, as stated, fails: when the model answers each of the three
    invocations with a parenthesis only, none of them fails, yet no variant
    is stored and the round is reported as failed. *)
Lemma C4_empty_drafts_dropped :
  let w0 := (search_web_content aside_env (search_query demo_ui)
               (search_type demo_ui) (serper_api_key demo_ui)
               (num_results demo_ui) initial_world).2 in
  let w' := (on_search aside_env demo_ui initial_world).2 in
  compose_runs aside_env demo_ui demo_results [0; 1; 2]%nat
    (set_search_results (Some demo_results) w0)
  = [Value []; Value []; Value []]
  ∧ generated_posts w' = []
  ∧ last (trace w')
    = Some (StError (codes "Failed to generate posts. Please check your API keys and try again.")).
Proof. repeat split; vm_compute; reflexivity. Qed.

(** C4, amended. After a successful search the generator is invoked exactly
    three times, each time whatever the earlier invocations returned or
    raised; the stored list holds, in order, the contents of the invocations
    that returned a non-empty text, so its length is the number of those
    (0 to 3); and the round is reported as a success exactly when there is
    at least one of them. *)
Theorem C4_variants_collected (E : env) (ui : widgets) (w w0 : world)
    (results : content_data) :
  truthy (search_query ui) = true →
  truthy (serper_api_key ui) = true →
  truthy (openai_api_key ui) = true →
  search_web_content E (search_query ui) (search_type ui)
    (serper_api_key ui) (num_results ui) w = (Done (Value results), w0) →
  let runs := compose_runs E ui results [0; 1; 2]%nat
                (set_search_results (Some results) w0) in
  let w' := (on_search E ui w).2 in
  length runs = 3%nat
  ∧ List.filter is_gpt4 (emitted w0 w')
    = map (generation_request ui results) [0; 1; 2]%nat
  ∧ map content (generated_posts w') = omap stored_content runs
  ∧ length (generated_posts w') = length (List.filter with_content runs)
  ∧ (length (generated_posts w') ≤ 3)%nat
  ∧ ∃ shown, last (trace w') = Some shown
             ∧ is_success shown = existsb with_content runs.
Proof.
  intros Hq Hs Ho Hsearch. cbn zeta.
  destruct (on_search_generates E ui w w0 results Hq Hs Ho Hsearch)
    as (new & -> & Hlen & Hcontent & _).
  cbn [snd generated_posts set_trace set_generated_posts trace].
  assert (length new = length (List.filter with_content
            (compose_runs E ui results [0; 1; 2]%nat
               (set_search_results (Some results) w0)))) as Hnew.
  { by rewrite <- omap_stored_length, <- Hcontent, length_map. }
  split; [done|]. split.
  { erewrite emitted_app by reflexivity. apply filter_gpt4_round. }
  split; [done|]. split; [done|]. split.
  { rewrite Hnew, <- Hlen. apply List.filter_length_le. }
  exists (report ui new). split.
  - by rewrite app_assoc, last_snoc.
  - by rewrite is_success_report, <- omap_stored_truthy, <- Hcontent, truthy_map.
Qed.

Lemma C4_witness :
  let w0 := (search_web_content demo_env (search_query demo_ui)
               (search_type demo_ui) (serper_api_key demo_ui)
               (num_results demo_ui) initial_world).2 in
  truthy (search_query demo_ui) = true
  ∧ truthy (serper_api_key demo_ui) = true
  ∧ truthy (openai_api_key demo_ui) = true
  ∧ length (compose_runs demo_env demo_ui demo_results [0; 1; 2]%nat
              (set_search_results (Some demo_results) w0)) = 3%nat.
Proof.
  cbn zeta. do 3 (split; [reflexivity|]).
  exact (proj1 (C4_variants_collected demo_env demo_ui initial_world _
                  demo_results eq_refl eq_refl eq_refl demo_search_run)).
Defined.

(** C9, as stated, fails for the first variant: the instructions typed by
    the user are sanitized before they are handed to the generator. *)
Lemma C9_first_variant_sanitized :
  custom_prompt demo_ui = codes "use (x)"
  ∧ variation_prompt (custom_prompt demo_ui) 0 = codes "use"
  ∧ variation_prompt (custom_prompt demo_ui) 0 ≠ custom_prompt demo_ui
  ∧ List.filter is_gpt4 (trace demo_world) !! 0%nat
    = Some (Gpt4Invoke (codes "openai-key")
              (base_prompt (codes "English") (extract demo_results).1
                 (extract demo_results).2 (codes "use"))).
Proof.
  split; [reflexivity|]. split; [reflexivity|]. split; [discriminate|].
  vm_compute. reflexivity.
Qed.

(** C9, amended. The three requests of a round carry, as style
    instructions, the sanitized instructions of the user: as they are for
    variant 1, followed by a blank line and "Make this version more casual
    and story-driven." for variant 2, and followed by a blank line and "Make
    this version more data-driven and professional." for variant 3. *)
Theorem C9_variant_instructions (E : env) (ui : widgets) (w w0 : world)
    (results : content_data) :
  truthy (search_query ui) = true →
  truthy (serper_api_key ui) = true →
  truthy (openai_api_key ui) = true →
  search_web_content E (search_query ui) (search_type ui)
    (serper_api_key ui) (num_results ui) w = (Done (Value results), w0) →
  let style := clean_text_content (custom_prompt ui) in
  let ask instructions :=
    Gpt4Invoke (openai_api_key ui)
      (base_prompt (strip (clean_text_content (selected_language ui)))
         (extract results).1 (extract results).2 instructions) in
  List.filter is_gpt4 (emitted w0 (on_search E ui w).2) =
  [ask style;
   ask (style ++ [LF; LF] ++ codes "Make this version more casual and story-driven.");
   ask (style ++ [LF; LF] ++ codes "Make this version more data-driven and professional.")].
Proof.
  intros Hq Hs Ho Hsearch. cbn zeta.
  destruct (on_search_generates E ui w w0 results Hq Hs Ho Hsearch)
    as (new & -> & _).
  cbn [snd]. erewrite emitted_app by reflexivity.
  by rewrite filter_gpt4_round.
Qed.

Lemma C9_witness :
  let w0 := (search_web_content demo_env (search_query demo_ui)
               (search_type demo_ui) (serper_api_key demo_ui)
               (num_results demo_ui) initial_world).2 in
  truthy (search_query demo_ui) = true
  ∧ truthy (serper_api_key demo_ui) = true
  ∧ truthy (openai_api_key demo_ui) = true
  ∧ length (List.filter is_gpt4 (emitted w0 demo_world)) = 3%nat.
Proof.
  cbn zeta. do 3 (split; [reflexivity|]).
  exact (f_equal length
           (C9_variant_instructions demo_env demo_ui initial_world _
              demo_results eq_refl eq_refl eq_refl demo_search_run)).
Defined.

(** * The prompt *)








(** * Missing credentials and missing fields *)

(** C8. In every state a session can reach, each of the four operations,
    called with an empty API key, returns the failure that names the missing
    key and leaves the trace as it was: no request, no model invocation, no
    agent run. *)
Theorem C8_missing_key_no_network (E : env) (w : world) :
  reachable E w →
  ∀ (query search_type content target_language custom_prompt : str)
    (post_content author_urn openai_key : str)
    (num_results : nat) (data : content_data),
    let searched := search_web_content E query search_type [] num_results w in
    searched.1 = Done (Error (codes "Serper API key is required"))
    ∧ trace searched.2 = trace w
    ∧ generate_linkedin_post E data custom_prompt [] target_language w
      = (Done (Error (codes "OpenAI API key is required")), w)
    ∧ translate_content E content target_language [] w
      = (Done (Error (codes "Sutra API key is required")), w)
    ∧ upload_to_linkedin E openai_key post_content author_urn [] w
      = (Done (Error (codes "Composio API key is required")), w).
Proof.
  intros [_ Hcache]%reachable_session_ok.
  intros query search_type content target_language custom_prompt
    post_content author_urn openai_key num_results data. cbn zeta.
  split; [|split; [|by repeat split]];
    rewrite search_web_content_unfold; cbn zeta; unfold cached.
  - destruct (search_cache w !! _) as [[v expires]|] eqn:Hentry; [|done].
    destruct (timer w <? expires)%nat; [|done].
    cbn [fst]. f_equal. by apply (Hcache _ _ _ _ _ Hentry).
  - destruct (search_cache w !! _) as [[v expires]|]; [|done].
    by destruct (timer w <? expires)%nat.
Qed.

Lemma C8_witness :
  reachable demo_env demo_world
  ∧ generate_linkedin_post demo_env demo_results [] [] (codes "English") demo_world
    = (Done (Error (codes "OpenAI API key is required")), demo_world).
Proof.
  split; [exact demo_world_reachable|].
  exact (proj1 (proj2 (proj2
           (C8_missing_key_no_network demo_env demo_world demo_world_reachable
              [] [] [] (codes "English") [] [] [] [] 0%nat demo_results)))).
Defined.

(** C10. With an API key, [generate_linkedin_post] invokes the model once
    whatever the search result holds, and fails exactly when that invocation
    raises.  A hit without title and snippet contributes the line "• : ",
    and a result without [organic] and [news] gives an empty summary and no
    links. *)
Theorem C10_missing_fields_tolerated (E : env) (data : content_data)
    (custom_prompt api_key target_language : str) (w : world) :
  truthy api_key = true →
  let run := generate_linkedin_post E data custom_prompt api_key target_language w in
  let prompt :=
    base_prompt (strip target_language)
      (concat (map summary_line (used_items data)))
      (concat (map item_links (used_items data))) custom_prompt in
  emitted w run.2 = [Gpt4Invoke api_key prompt]
  ∧ (∃ r, run.1 = Done r
          ∧ (failed r = true ↔
             ∃ e, gpt4_invoke E (trace w) api_key prompt = Raises e))
  ∧ (data !! "organic"%string = None → data !! "news"%string = None →
     prompt = base_prompt (strip target_language) [] [] custom_prompt)
  ∧ (∀ it : gmap string str,
       it !! "title"%string = None → it !! "snippet"%string = None →
       summary_line it = [BULLET] ++ codes " " ++ codes ": " ++ [LF]).
Proof.
  intros Hk. cbn zeta.
  rewrite generate_linkedin_post_run by done. cbn zeta.
  rewrite extract_spec. cbn [fst snd]. rewrite emitted_set_trace.
  split; [done|]. split; [|split].
  - destruct (gpt4_invoke E (trace w) api_key _) as [response|e].
    + eexists. split; [reflexivity|]. cbn [failed].
      split; [done | by intros [? [=]]].
    + eexists. split; [reflexivity|]. cbn [failed]. split; eauto.
  - unfold used_items. by intros -> ->.
  - intros it Ht Hs. unfold summary_line. by rewrite Ht, Hs.
Qed.

Lemma C10_witness :
  truthy (codes "openai-key") = true
  ∧ emitted initial_world
      (generate_linkedin_post demo_env ∅ [] (codes "openai-key") (codes "English")
         initial_world).2
    = [Gpt4Invoke (codes "openai-key")
         (base_prompt (strip (codes "English")) [] [] [])].
Proof.
  split; [reflexivity|].
  exact (proj1 (C10_missing_fields_tolerated demo_env ∅ [] (codes "openai-key")
                  (codes "English") initial_world eq_refl)).
Defined.

(** * Further properties of the sanitizer *)

Lemma clean_text_content_unfold (t : str) :
  clean_text_content t
  = strip (strip_parens (normalize (drop_spans false t))).
Proof.
  destruct t as [|c t]; [reflexivity|].
  unfold clean_text_content, normalize. cbn [truthy negb].
  by rewrite re_sub_drop_spans, remove_both_parens.
Qed.

Lemma lstrip_starts (s : str) : starts_space (lstrip s) = false.
Proof.
  induction s as [|c s IH]; [done|]. simpl.
  destruct (isspace c) eqn:Hc; [done|]. simpl. by rewrite Hc.
Qed.

Lemma rstrip_starts (s : str) :
  starts_space s = false → starts_space (rstrip s) = false.
Proof.
  destruct s as [|c s]; [done|]. simpl. intros Hc.
  destruct (rstrip s); [by rewrite Hc | done].
Qed.

Lemma rev_rstrip (s : str) : rev (rstrip s) = lstrip (rev s).
Proof. by rewrite rstrip_rev, rev_involutive. Qed.

Lemma clean_text_content_shape (text : str) :
  starts_space (clean_text_content text) = false
  ∧ starts_space (rev (clean_text_content text)) = false
  ∧ (∀ c, c ∈ clean_text_content text → isspace c = true → c = SPACE)
  ∧ LF ∉ clean_text_content text.
Proof.
  split; [|split; [|split]].
  - rewrite clean_text_content_unfold. unfold strip.
    apply rstrip_starts, lstrip_starts.
  - rewrite clean_text_content_unfold. unfold strip.
    rewrite rev_rstrip. apply lstrip_starts.
  - apply clean_text_content_tidy.
  - intros H. by pose proof (clean_text_content_tidy text LF H eq_refl).
Qed.

(** X1. What [clean_text_content] returns never starts or ends with a
    whitespace character, and the only whitespace character it contains is
    the plain space: line breaks, tabs and no-break spaces of the input are
    gone. *)
Theorem X1_clean_text_content_shape (text : str) :
  starts_space (clean_text_content text) = false
  ∧ starts_space (rev (clean_text_content text)) = false
  ∧ (∀ c, c ∈ clean_text_content text → isspace c = true → c = SPACE)
  ∧ LF ∉ clean_text_content text.
Proof.
  split; [|split; [|split]].
  - rewrite clean_text_content_unfold. unfold strip.
    apply rstrip_starts, lstrip_starts.
  - rewrite clean_text_content_unfold. unfold strip.
    rewrite rev_rstrip. apply lstrip_starts.
  - apply clean_text_content_tidy.
  - intros H. by pose proof (clean_text_content_tidy text LF H eq_refl).
Qed.

Lemma length_lstrip (s : str) : (length (lstrip s) ≤ length s)%nat.
Proof.
  induction s as [|c s IH]; simpl; [done|].
  destruct (isspace c); simpl; lia.
Qed.

Lemma length_rstrip (s : str) : (length (rstrip s) ≤ length s)%nat.
Proof.
  rewrite rstrip_rev, length_rev. etrans; [apply length_lstrip|].
  by rewrite length_rev.
Qed.

Lemma length_collapse (s : str) :
  (length (collapse_whitespace s) ≤ length s)%nat.
Proof.
  induction s as [|c s IH]; simpl; [done|].
  destruct (isspace c); [destruct (starts_space s)|]; simpl; lia.
Qed.

Lemma length_normalize (s : str) : (length (normalize s) ≤ length s)%nat.
Proof.
  destruct (collapse_join s) as (r & _ & Hc).
  pose proof (length_collapse s) as Hle. rewrite Hc in Hle.
  rewrite !length_app in Hle. unfold normalize. lia.
Qed.

Lemma length_drop_spans (inside : bool) (s : str) :
  (length (drop_spans inside s) ≤ length s)%nat.
Proof.
  revert inside. induction s as [|c s IH]; intros inside; simpl; [done|].
  destruct inside.
  - specialize (IH (negb (c =? RPAREN))). lia.
  - destruct ((c =? LPAREN) && has_close s).
    + specialize (IH true). lia.
    + specialize (IH false). simpl. lia.
Qed.

(** X2. The sanitizer never makes a text longer. *)
Theorem X2_clean_text_content_length (text : str) :
  (length (clean_text_content text) ≤ length text)%nat.
Proof.
  rewrite clean_text_content_unfold. unfold strip.
  etrans; [apply length_rstrip|]. etrans; [apply length_lstrip|].
  etrans; [apply List.filter_length_le|]. etrans; [apply length_normalize|].
  apply length_drop_spans.
Qed.

(** X3. Two passes of the sanitizer are enough: the second pass joins the
    words of the first result by single spaces, and a third pass changes
    nothing more. *)
Theorem X3_clean_text_content_third_pass (text : str) :
  clean_text_content (clean_text_content text)
  = join [SPACE] (split (clean_text_content text))
  ∧ clean_text_content (clean_text_content (clean_text_content text))
    = clean_text_content (clean_text_content text).
Proof. apply clean_text_content_settles. Qed.

(** X4. The texts the sanitizer leaves as they are, are exactly the texts
    without parentheses whose words are separated by single spaces, with no
    whitespace at either end. *)
Theorem X4_clean_text_content_fixed_points (text : str) :
  clean_text_content text = text
  ↔ no_parens text ∧ join [SPACE] (split text) = text.
Proof.
  split.
  - intros Hfix.
    assert (no_parens text) as Hnp
      by (rewrite <- Hfix; apply clean_text_content_no_parens).
    split; [done|]. change (normalize text = text).
    by rewrite <- (clean_text_content_paren_free text Hnp).
  - intros [Hnp Hnorm]. by rewrite clean_text_content_paren_free.
Qed.

Lemma drop_spans_app_no_open (a x : str) :
  LPAREN ∉ a → drop_spans false (a ++ x) = a ++ drop_spans false x.
Proof.
  induction a as [|c a IH]; [done|]. intros Hnot.
  apply not_elem_of_cons in Hnot as [Hc Ha]. cbn [app drop_spans].
  destruct (N.eqb_spec c LPAREN) as [->|_]; [done|].
  cbn [andb]. by rewrite IH.
Qed.

Lemma after_close_app (m b : str) :
  RPAREN ∉ m → after_close (m ++ RPAREN :: b) = Some b.
Proof.
  induction m as [|c m IH]; [done|]. intros Hnot.
  apply not_elem_of_cons in Hnot as [Hc Hm]. cbn [app after_close].
  destruct (N.eqb_spec c RPAREN) as [->|_]; [done|]. by apply IH.
Qed.

Lemma drop_spans_span (m b : str) :
  RPAREN ∉ m →
  drop_spans false (LPAREN :: m ++ RPAREN :: b) = drop_spans false b.
Proof.
  intros Hm. pose proof (after_close_app m b Hm) as Hc.
  cbn [drop_spans]. change (LPAREN =? LPAREN) with true. cbn [andb].
  assert (has_close (m ++ RPAREN :: b) = true) as ->
    by (apply has_close_after; eauto).
  by rewrite drop_spans_inside, Hc.
Qed.

(** X5. A parenthesised span is removed as if it had never been written:
    if no [(] is open before it and it holds no [)], the text with the span
    sanitizes to the same result as the text without it. *)
Theorem X5_clean_text_content_span (before inner after : str) :
  LPAREN ∉ before → RPAREN ∉ inner →
  clean_text_content (before ++ [LPAREN] ++ inner ++ [RPAREN] ++ after)
  = clean_text_content (before ++ after).
Proof.
  intros Hb Hi. rewrite !clean_text_content_unfold.
  rewrite (drop_spans_app_no_open before after Hb).
  rewrite (drop_spans_app_no_open before _ Hb).
  change ([LPAREN] ++ inner ++ [RPAREN] ++ after)
    with (LPAREN :: inner ++ RPAREN :: after).
  by rewrite drop_spans_span.
Qed.

Lemma X5_witness :
  (LPAREN ∉ codes "Markets rose ")
  ∧ (RPAREN ∉ codes "Reuters")
  ∧ clean_text_content (codes "Markets rose " ++ [LPAREN] ++ codes "Reuters"
                        ++ [RPAREN] ++ codes " today")
    = clean_text_content (codes "Markets rose " ++ codes " today").
Proof.
  assert (LPAREN ∉ codes "Markets rose ") as Hb
    by (apply (bool_decide_unpack _); vm_compute; exact I).
  assert (RPAREN ∉ codes "Reuters") as Hi
    by (apply (bool_decide_unpack _); vm_compute; exact I).
  split; [exact Hb|]. split; [exact Hi|].
  exact (X5_clean_text_content_span _ _ _ Hb Hi).
Defined.

(** X6. For a text without parentheses, the word count shown under the
    edit box is also the word count of the text that is copied or
    published. *)
Theorem X6_word_count_kept (edited_content : str) :
  no_parens edited_content →
  word_count (clean_text_content edited_content) = word_count edited_content.
Proof.
  intros Hnp. unfold word_count.
  rewrite (clean_text_content_paren_free _ Hnp). unfold normalize.
  by rewrite split_join by apply split_all_words.
Qed.

Lemma X6_witness :
  no_parens (codes "  three  short words ")
  ∧ word_count (clean_text_content (codes "  three  short words ")) = 3%nat.
Proof.
  assert (no_parens (codes "  three  short words ")) as H
    by (split; apply (bool_decide_unpack _); vm_compute; exact I).
  split; [exact H|].
  exact (X6_word_count_kept (codes "  three  short words ") H).
Defined.

(** * Further properties of the services *)

Lemma same_session_set_trace (w : world) (t : list event) :
  same_session w (set_trace t w).
Proof. by repeat split. Qed.



(** X8. One call of the cached [search_web_content] issues at most one
    HTTP request, always to [https://google.serper.dev/<search_type>] with
    the key, query and count of the call; it changes neither the session
    state nor the timer, and no cache entry but the one of its own
    arguments. *)
Theorem X8_search_at_most_one_request (E : env)
    (query search_type api_key : str) (num_results : nat) (w : world) :
  let w' := (search_web_content E query search_type api_key num_results w).2 in
  (emitted w w' = []
   ∨ emitted w w' = [HttpPost (codes "https://google.serper.dev/" ++ search_type)
                       api_key query num_results])
  ∧ generated_posts w' = generated_posts w
  ∧ search_results w' = search_results w
  ∧ timer w' = timer w
  ∧ (∀ key', key' ≠ (query, search_type, api_key, num_results) →
             search_cache w' !! key' = search_cache w !! key').
Proof.
  cbn zeta.
  destruct (search_web_content_frame E query search_type api_key num_results w)
    as (Hp & Hr & Ht & Hc & Htrace).
  split; [|by auto].
  destruct Htrace as [Htrace|Htrace].
  - left. apply emitted_app. by rewrite app_nil_r.
  - right. by apply emitted_app.
Qed.

Lemma search_web_content_cached_after (E : env)
    (query search_type api_key : str) (num_results : nat) (w w0 : world)
    (v : ret content_data) :
  search_web_content E query search_type api_key num_results w = (Done v, w0) →
  cached w0 (query, search_type, api_key, num_results) = Some v.
Proof.
  rewrite search_web_content_unfold. cbn zeta.
  destruct (cached w _) as [v'|] eqn:Hhit.
  - by intros [= <- <-].
  - destruct (search_web_content_uncached E _ _ _ _ w) as [[v'|e] w'];
      [|discriminate].
    intros [= <- <-]. unfold cached. cbn [search_cache set_search_cache timer].
    rewrite lookup_insert_eq.
    by destruct (Nat.ltb_spec (timer w') (timer w' + ttl)); [|unfold ttl in *; lia].
Qed.



(** X10. An exception of the request that is not a
    [requests.RequestException] is not caught: it leaves
    [search_web_content], nothing is stored in the cache, and a later call
    with the same arguments issues the request again. *)
Theorem X10_search_other_exception (E : env)
    (query search_type api_key e : str) (num_results : nat) (w : world) :
  truthy api_key = true →
  cached w (query, search_type, api_key, num_results) = None →
  requests_post E (trace w) (codes "https://google.serper.dev/" ++ search_type)
    api_key query num_results = HttpOtherException e →
  let request := HttpPost (codes "https://google.serper.dev/" ++ search_type)
                   api_key query num_results in
  let run := search_web_content E query search_type api_key num_results w in
  run.1 = Uncaught e
  ∧ emitted w run.2 = [request]
  ∧ same_session w run.2
  ∧ emitted run.2
      (search_web_content E query search_type api_key num_results run.2).2
    = [request].
Proof.
  intros Hk Hmiss Hreply. cbn zeta.
  rewrite (search_web_content_miss E query search_type api_key num_results w)
    by done.
  cbn zeta. rewrite Hreply. cbn [search_outcome fst snd].
  split; [done|]. split; [by apply emitted_set_trace|].
  split; [apply same_session_set_trace|].
  rewrite search_web_content_miss by done. cbn zeta.
  by destruct (search_outcome _); apply emitted_app.
Qed.

Lemma X10_witness :
  let q := codes "Agentic AI Frameworks" in
  let key := codes "serper-key" in
  let run := search_web_content crash_env q (codes "search") key 10 initial_world in
  truthy key = true
  ∧ cached initial_world (q, codes "search", key, 10%nat) = None
  ∧ run.1 = Uncaught (codes "ValueError").
Proof.
  cbn zeta. split; [reflexivity|]. split; [reflexivity|].
  exact (proj1 (X10_search_other_exception crash_env
                  (codes "Agentic AI Frameworks") (codes "search")
                  (codes "serper-key") (codes "ValueError") 10 initial_world
                  eq_refl eq_refl eq_refl)).
Defined.

(** X11. Whatever the model answers, a text returned by
    [generate_linkedin_post] has no parentheses, no whitespace at either
    end, and no whitespace character but the plain space: every line break
    of the model's answer has been replaced. *)
Theorem X11_generated_text_is_sanitized (E : env) (data : content_data)
    (custom_prompt api_key target_language post_content : str) (w : world) :
  (generate_linkedin_post E data custom_prompt api_key target_language w).1
  = Done (Value post_content) →
  no_parens post_content
  ∧ (LF ∉ post_content)
  ∧ (∀ c, c ∈ post_content → isspace c = true → c = SPACE)
  ∧ starts_space post_content = false
  ∧ starts_space (rev post_content) = false.
Proof.
  destruct (truthy api_key) eqn:Hk.
  - rewrite generate_linkedin_post_run by done. cbn zeta. cbn [fst].
    destruct (gpt4_invoke E (trace w) api_key _) as [response|e]; [|discriminate].
    intros [= <-].
    destruct (clean_text_content_shape response) as (H1 & H2 & H3 & H4).
    split; [apply clean_text_content_no_parens | done].
  - unfold generate_linkedin_post. rewrite Hk. discriminate.
Qed.

Lemma X11_witness :
  (generate_linkedin_post demo_env demo_results [] (codes "openai-key")
     (codes "English") initial_world).1
  = Done (Value (codes "Big news today"))
  ∧ no_parens (codes "Big news today").
Proof.
  assert ((generate_linkedin_post demo_env demo_results [] (codes "openai-key")
             (codes "English") initial_world).1
          = Done (Value (codes "Big news today"))) as H
    by (vm_compute; reflexivity).
  split; [exact H|].
  exact (proj1 (X11_generated_text_is_sanitized demo_env demo_results []
                  (codes "openai-key") (codes "English")
                  (codes "Big news today") initial_world H)).
Defined.

Lemma extract_used_items (data data' : content_data) :
  used_items data = used_items data' → extract data = extract data'.
Proof. intros H. by rewrite !extract_spec, H. Qed.

(** X12. [generate_linkedin_post] reads nothing of the search result but
    the first five organic hits and the first three news hits: two results
    that agree on those lead to the same prompt, the same call of the model
    and the same returned value. *)
Theorem X12_generation_reads_top_hits_only (E : env) (data data' : content_data)
    (custom_prompt api_key target_language : str) (w : world) :
  take 5 (default [] (data !! "organic"%string))
  = take 5 (default [] (data' !! "organic"%string)) →
  take 3 (default [] (data !! "news"%string))
  = take 3 (default [] (data' !! "news"%string)) →
  generate_linkedin_post E data custom_prompt api_key target_language w
  = generate_linkedin_post E data' custom_prompt api_key target_language w.
Proof.
  intros Ho Hn. unfold generate_linkedin_post.
  rewrite (extract_used_items data data'); [done|].
  unfold used_items. by rewrite Ho, Hn.
Qed.

Lemma X12_witness :
  take 5 (default [] (demo_results !! "organic"%string))
  = take 5 (default [] (demo_results_more !! "organic"%string))
  ∧ take 3 (default [] (demo_results !! "news"%string))
    = take 3 (default [] (demo_results_more !! "news"%string))
  ∧ generate_linkedin_post demo_env demo_results [] (codes "openai-key")
      (codes "English") initial_world
    = generate_linkedin_post demo_env demo_results_more [] (codes "openai-key")
        (codes "English") initial_world.
Proof.
  split; [reflexivity|]. split; [reflexivity|].
  exact (X12_generation_reads_top_hits_only demo_env demo_results
           demo_results_more [] (codes "openai-key") (codes "English")
           initial_world eq_refl eq_refl).
Defined.

(** * Further properties of the handlers *)

(** X13. "Search & Generate Posts" with an empty query, an empty Serper key
    or an empty OpenAI key shows one error message, the one of the first of
    these three that is empty, and does nothing else: no call leaves the
    process and the session state stays as it was. *)
Theorem X13_search_guards (E : env) (ui : widgets) (w : world) :
  truthy (search_query ui) = false
  ∨ truthy (serper_api_key ui) = false
  ∨ truthy (openai_api_key ui) = false →
  let run := on_search E ui w in
  run.1 = Done tt
  ∧ same_session w run.2
  ∧ emitted w run.2 =
    [StError
       (if negb (truthy (search_query ui)) then
          codes "Please enter a search query"
        else if negb (truthy (serper_api_key ui)) then
          codes "Please provide Serper API key in the sidebar"
        else codes "Please provide OpenAI API key in the sidebar")].
Proof.
  intros Hguard. cbn zeta. unfold on_search.
  destruct (truthy (search_query ui)); cbn [negb];
    [destruct (truthy (serper_api_key ui)); cbn [negb];
     [destruct (truthy (openai_api_key ui)); cbn [negb]|]|];
    try (by destruct Hguard as [?|[?|?]]);
    run_monad; rewrite emitted_set_trace;
    (split; [done|]); (split; [apply same_session_set_trace | done]).
Qed.

Lemma X13_witness :
  (truthy (search_query demo_ui_no_openai) = false
   ∨ truthy (serper_api_key demo_ui_no_openai) = false
   ∨ truthy (openai_api_key demo_ui_no_openai) = false)
  ∧ emitted initial_world (on_search demo_env demo_ui_no_openai initial_world).2
    = [StError (codes "Please provide OpenAI API key in the sidebar")].
Proof.
  assert (truthy (search_query demo_ui_no_openai) = false
          ∨ truthy (serper_api_key demo_ui_no_openai) = false
          ∨ truthy (openai_api_key demo_ui_no_openai) = false) as H
    by (right; right; reflexivity).
  split; [exact H|].
  exact (proj2 (proj2 (X13_search_guards demo_env demo_ui_no_openai
                         initial_world H))).
Defined.

Lemma on_search_error (E : env) (ui : widgets) (w w0 : world) (err : str) :
  truthy (search_query ui) = true →
  truthy (serper_api_key ui) = true →
  truthy (openai_api_key ui) = true →
  search_web_content E (search_query ui) (search_type ui)
    (serper_api_key ui) (num_results ui) w = (Done (Error err), w0) →
  on_search E ui w
  = (Done tt, set_trace (trace w0 ++ [StError (codes "Search failed: " ++ err)]) w0).
Proof.
  intros Hq Hs Ho Hsearch. unfold on_search. rewrite Hq, Hs, Ho. run_monad.
  by rewrite Hsearch.
Qed.

(** X14. When the search returns an error, the page shows "Search failed: "
    followed by that error, the model is not invoked, and the drafts and
    the search result of the session stay those of before. *)
Theorem X14_failed_search_keeps_session (E : env) (ui : widgets)
    (w w0 : world) (err : str) :
  truthy (search_query ui) = true →
  truthy (serper_api_key ui) = true →
  truthy (openai_api_key ui) = true →
  search_web_content E (search_query ui) (search_type ui)
    (serper_api_key ui) (num_results ui) w = (Done (Error err), w0) →
  let run := on_search E ui w in
  run.1 = Done tt
  ∧ emitted w0 run.2 = [StError (codes "Search failed: " ++ err)]
  ∧ generated_posts run.2 = generated_posts w
  ∧ search_results run.2 = search_results w
  ∧ List.filter is_gpt4 (emitted w run.2) = [].
Proof.
  intros Hq Hs Ho Hsearch. cbn zeta.
  rewrite (on_search_error E ui w w0 err) by done. cbn [fst snd].
  pose proof (search_web_content_frame E (search_query ui) (search_type ui)
                (serper_api_key ui) (num_results ui) w) as Hframe.
  cbn zeta in Hframe. rewrite Hsearch in Hframe. cbn [snd] in Hframe.
  destruct Hframe as (Hp & Hr & _ & _ & Htrace).
  split; [done|]. split; [by rewrite emitted_set_trace|].
  split; [done|]. split; [done|].
  destruct Htrace as [Ht|Ht].
  - erewrite emitted_app by (cbn [trace set_trace]; by rewrite Ht). done.
  - erewrite emitted_app
      by (cbn [trace set_trace]; by rewrite Ht, <- app_assoc).
    done.
Qed.

Lemma failing_search_run :
  search_web_content failing_env (search_query demo_ui) (search_type demo_ui)
    (serper_api_key demo_ui) (num_results demo_ui) initial_world
  = (Done (Error (codes "Search failed: timed out")),
     (search_web_content failing_env (search_query demo_ui) (search_type demo_ui)
        (serper_api_key demo_ui) (num_results demo_ui) initial_world).2).
Proof. rewrite search_web_content_miss by reflexivity. reflexivity. Qed.

Lemma X14_witness :
  let w0 := (search_web_content failing_env (search_query demo_ui)
               (search_type demo_ui) (serper_api_key demo_ui)
               (num_results demo_ui) initial_world).2 in
  truthy (search_query demo_ui) = true
  ∧ truthy (serper_api_key demo_ui) = true
  ∧ truthy (openai_api_key demo_ui) = true
  ∧ emitted w0 (on_search failing_env demo_ui initial_world).2
    = [StError (codes "Search failed: " ++ codes "Search failed: timed out")].
Proof.
  cbn zeta. do 3 (split; [reflexivity|]).
  exact (proj1 (proj2
           (X14_failed_search_keeps_session failing_env demo_ui initial_world
              _ (codes "Search failed: timed out") eq_refl eq_refl eq_refl
              failing_search_run))).
Defined.

Lemma kept_labelled (E : env) (ui : widgets) (i : nat) (t : list event)
    (r : reply str) :
  Forall (labelled ui i) (kept E ui i t r).
Proof.
  destruct r as [response|e]; cbn [kept]; [|constructor].
  destruct (truthy (clean_text_content response)) eqn:Hc; constructor;
    [|constructor].
  repeat split; cbn [content]; try done.
  - apply clean_text_content_no_parens.
  - apply clean_text_content_no_parens.
  - apply clean_text_content_tidy.
Qed.

Lemma kept_variation (E : env) (ui : widgets) (i : nat) (t : list event)
    (r : reply str) :
  map variation (kept E ui i t r) `sublist_of` [variation_label i].
Proof.
  destruct r as [response|e]; cbn [kept]; [|apply sublist_nil_l].
  destruct (truthy (clean_text_content response)); [done | apply sublist_nil_l].
Qed.

Lemma generation_loop_labels (E : env) (ui : widgets) (results : content_data)
    (turns : list nat) :
  truthy (openai_api_key ui) = true →
  ∀ (acc : list post) (w : world), ∃ new : list post,
    (for_each turns (generate_variation E ui results) acc w).1 = Done (acc ++ new)
    ∧ map variation new `sublist_of` map variation_label turns
    ∧ Forall (fun p => ∃ i, i ∈ turns ∧ labelled ui i p) new.
Proof.
  intros Hk. induction turns as [|i turns IH]; intros acc w.
  - exists []. cbn. by rewrite app_nil_r.
  - cbn [for_each]. unfold mbind, M_bind at 1.
    rewrite generate_variation_run by done. cbn zeta.
    set (request := Gpt4Invoke (openai_api_key ui) (variation_request ui results i)).
    set (r := gpt4_invoke E (trace w) (openai_api_key ui)
                (variation_request ui results i)).
    destruct (IH (acc ++ kept E ui i (trace w ++ [request]) r)
                 (set_trace (trace w ++ [request]) w))
      as (new & Hrun & Hsub & Hall).
    exists (kept E ui i (trace w ++ [request]) r ++ new).
    split; [by rewrite Hrun, <- app_assoc|]. split.
    + rewrite map_app. cbn [map].
      change (variation_label i :: map variation_label turns)
        with ([variation_label i] ++ map variation_label turns).
      apply sublist_app; [apply kept_variation | done].
    + apply Forall_app. split.
      * eapply Forall_impl; [apply kept_labelled|].
        intros p Hp. exists i. split; [left | done].
      * eapply Forall_impl; [exact Hall|].
        intros p (j & Hj & Hp). exists j. split; [by right | done].
Qed.

Lemma on_search_after_loop (E : env) (ui : widgets) (w w0 w2 : world)
    (results : content_data) (new : list post) :
  truthy (search_query ui) = true →
  truthy (serper_api_key ui) = true →
  truthy (openai_api_key ui) = true →
  search_web_content E (search_query ui) (search_type ui)
    (serper_api_key ui) (num_results ui) w = (Done (Value results), w0) →
  for_each [0; 1; 2]%nat (generate_variation E ui results) []
    (set_search_results (Some results) w0) = (Done new, w2) →
  on_search E ui w
  = (Done tt, set_trace (trace w2 ++ [report ui new]) (set_generated_posts new w2)).
Proof.
  intros Hq Hs Ho Hsearch Hloop.
  unfold on_search. rewrite Hq, Hs, Ho. cbn [negb].
  unfold mbind, M_bind at 1. rewrite Hsearch.
  unfold mbind, M_bind at 1. unfold modify at 1.
  unfold mbind, M_bind at 1. change (seq 0 3) with [0; 1; 2]%nat.
  rewrite Hloop. unfold mbind, M_bind, modify, emit, report.
  by destruct (truthy new).
Qed.

Lemma on_search_round (E : env) (ui : widgets) (w w0 : world)
    (results : content_data) :
  truthy (search_query ui) = true →
  truthy (serper_api_key ui) = true →
  truthy (openai_api_key ui) = true →
  search_web_content E (search_query ui) (search_type ui)
    (serper_api_key ui) (num_results ui) w = (Done (Value results), w0) →
  let w' := (on_search E ui w).2 in
  search_results w' = Some results
  ∧ map variation (generated_posts w')
    `sublist_of` [codes "Variation 1"; codes "Variation 2"; codes "Variation 3"]
  ∧ Forall (fun p => language p = clean_text_content (selected_language ui)
                     ∧ well_formed p) (generated_posts w')
  ∧ search_cache w' = search_cache w0
  ∧ timer w' = timer w0.
Proof.
  intros Hq Hs Ho Hsearch. cbn zeta.
  destruct (generation_loop E ui results [0; 1; 2]%nat Ho []
              (set_search_results (Some results) w0))
    as (new & Hrun & _).
  destruct (generation_loop_labels E ui results [0; 1; 2]%nat Ho []
              (set_search_results (Some results) w0))
    as (new' & Hrun' & Hsub & Hall).
  rewrite Hrun in Hrun'. cbn in Hrun'. injection Hrun' as <-.
  rewrite (on_search_after_loop E ui w w0 _ results new Hq Hs Ho Hsearch Hrun).
  cbn [snd]. repeat split; try done.
  eapply Forall_impl; [exact Hall|].
  by intros p (j & _ & _ & Hl & Hw).
Qed.

(** X15. After a successful search the session holds the search result and
    only the drafts of this round, in the order of their turns.  Each draft
    is labelled "Variation k" with k the number of its turn (so a label is
    skipped when a turn stores nothing), carries the sanitized name of the
    selected language, and has a non-empty text without parentheses whose
    only whitespace is the plain space. *)
Theorem X15_round_replaces_drafts (E : env) (ui : widgets) (w w0 : world)
    (results : content_data) :
  truthy (search_query ui) = true →
  truthy (serper_api_key ui) = true →
  truthy (openai_api_key ui) = true →
  search_web_content E (search_query ui) (search_type ui)
    (serper_api_key ui) (num_results ui) w = (Done (Value results), w0) →
  let w' := (on_search E ui w).2 in
  search_results w' = Some results
  ∧ map variation (generated_posts w')
    `sublist_of` [codes "Variation 1"; codes "Variation 2"; codes "Variation 3"]
  ∧ Forall (fun p => language p = clean_text_content (selected_language ui)
                     ∧ well_formed p) (generated_posts w')
  ∧ search_cache w' = search_cache w0
  ∧ timer w' = timer w0.
Proof. apply on_search_round. Qed.

Lemma X15_witness :
  truthy (search_query demo_ui) = true
  ∧ truthy (serper_api_key demo_ui) = true
  ∧ truthy (openai_api_key demo_ui) = true
  ∧ search_results demo_world = Some demo_results.
Proof.
  do 3 (split; [reflexivity|]).
  exact (proj1 (X15_round_replaces_drafts demo_env demo_ui initial_world _
                  demo_results eq_refl eq_refl eq_refl demo_search_run)).
Defined.

Lemma on_search_drafts (E : env) (ui : widgets) (w : world) :
  generated_posts (on_search E ui w).2 = generated_posts w
  ∨ ((length (generated_posts (on_search E ui w).2) ≤ 3)%nat
     ∧ Forall well_formed (generated_posts (on_search E ui w).2)).
Proof.
  destruct (truthy (search_query ui)) eqn:Hq;
    [|left; unfold on_search; by rewrite Hq].
  destruct (truthy (serper_api_key ui)) eqn:Hs;
    [|left; unfold on_search; by rewrite Hq, Hs].
  destruct (truthy (openai_api_key ui)) eqn:Ho;
    [|left; unfold on_search; by rewrite Hq, Hs, Ho].
  pose proof (search_web_content_frame E (search_query ui) (search_type ui)
                (serper_api_key ui) (num_results ui) w) as Hframe.
  cbn zeta in Hframe.
  destruct (search_web_content E (search_query ui) (search_type ui)
              (serper_api_key ui) (num_results ui) w) as [[[results|e]|e] w0] eqn:Hsearch;
    cbn [snd] in Hframe; destruct Hframe as (Hp & _).
  - right.
    destruct (on_search_round E ui w w0 results Hq Hs Ho Hsearch)
      as (_ & Hsub & Hall & _).
    split.
    + apply sublist_length in Hsub. by rewrite length_map in Hsub.
    + eapply Forall_impl; [exact Hall|]. by intros p [_ Hw].
  - left. by rewrite (on_search_error E ui w w0 e).
  - left. unfold on_search. rewrite Hq, Hs, Ho. run_monad. by rewrite Hsearch.
Qed.

Lemma step_drafts (E : env) (w w' : world) :
  step E w w' →
  (length (generated_posts w) ≤ 3)%nat ∧ Forall well_formed (generated_posts w) →
  (length (generated_posts w') ≤ 3)%nat ∧ Forall well_formed (generated_posts w').
Proof.
  intros [ui w0|i edited w0|ui i edited w0|w0|n w0] Hok.
  - by destruct (on_search_drafts E ui w0) as [->|?].
  - rewrite on_copy_run. by destruct (generated_posts w0 !! i).
  - rewrite on_upload_run.
    destruct (generated_posts w0 !! i); [|done].
    destruct (negb (truthy (composio_api_key ui))); [done|].
    by destruct (negb (truthy (linkedin_author_urn ui))).
  - unfold on_clear. run_monad. split; [cbn; lia | constructor].
  - done.
Qed.

(** X16. In every state a session can reach there are at most three
    drafts, and each of them has a non-empty text, without parentheses,
    whose only whitespace character is the plain space (a stored draft holds
    no line break). *)
Theorem X16_session_drafts (E : env) (w : world) :
  reachable E w →
  (length (generated_posts w) ≤ 3)%nat
  ∧ Forall well_formed (generated_posts w).
Proof.
  unfold reachable. revert w. apply rtc_ind_r.
  - cbn. split; [lia | constructor].
  - intros w1 w2 _ Hstep IH. by apply (step_drafts E w1).
Qed.

Lemma X16_witness :
  reachable demo_env demo_world
  ∧ (length (generated_posts demo_world) ≤ 3)%nat.
Proof.
  split; [exact demo_world_reachable|].
  exact (proj1 (X16_session_drafts demo_env demo_world demo_world_reachable)).
Defined.


(** X18. "Clear All Data" empties the drafts and the last search result and
    nothing else: the trace and the search cache stay, so a result cached
    before is still served after; and once the drafts are gone, "Copy" and
    "Upload to LinkedIn" do nothing, for any draft number. *)
Theorem X18_clear (E : env) (ui : widgets) (i : nat) (edited_content : str)
    (w : world) :
  let w' := (on_clear w).2 in
  generated_posts w' = []
  ∧ search_results w' = None
  ∧ trace w' = trace w
  ∧ (∀ key, cached w' key = cached w key)
  ∧ on_copy i edited_content w' = (Done tt, w')
  ∧ on_upload E ui i edited_content w' = (Done tt, w').
Proof.
  cbn zeta. rewrite on_copy_run, on_upload_run. cbn.
  repeat split; try done.
Qed.

Lemma filter_http_round (ui : widgets) (results : content_data)
    (turns : list nat) (ps : list post) :
  List.filter is_http (map (generation_request ui results) turns ++ [report ui ps])
  = [].
Proof.
  induction turns as [|i turns IH]; cbn.
  - unfold report. by destruct (truthy ps).
  - exact IH.
Qed.

(** X19. The search cache outlives "Clear All Data": after a successful
    search, clearing and searching again with the same widgets issues no
    HTTP request, yet invokes the model three more times and restores the
    same search result. *)
Theorem X19_search_again_after_clear (E : env) (ui : widgets) (w w0 : world)
    (results : content_data) :
  truthy (search_query ui) = true →
  truthy (serper_api_key ui) = true →
  truthy (openai_api_key ui) = true →
  search_web_content E (search_query ui) (search_type ui)
    (serper_api_key ui) (num_results ui) w = (Done (Value results), w0) →
  let cleared := (on_clear (on_search E ui w).2).2 in
  let again := (on_search E ui cleared).2 in
  List.filter is_http (emitted cleared again) = []
  ∧ List.filter is_gpt4 (emitted cleared again)
    = map (generation_request ui results) [0; 1; 2]%nat
  ∧ search_results again = Some results.
Proof.
  intros Hq Hs Ho Hsearch. cbn zeta.
  pose proof (search_web_content_cached_after _ _ _ _ _ _ _ _ Hsearch) as Hhit.
  destruct (on_search_round E ui w w0 results Hq Hs Ho Hsearch)
    as (_ & _ & _ & Hcache & Htimer).
  set (cleared := (on_clear (on_search E ui w).2).2).
  assert (cached cleared (search_query ui, search_type ui, serper_api_key ui,
                          num_results ui) = Some (Value results)) as Hhit'.
  { unfold cached in *. subst cleared. unfold on_clear. run_monad.
    by rewrite Hcache, Htimer. }
  pose proof (search_web_content_hit E _ _ _ _ _ _ Hhit') as Hsearch'.
  destruct (on_search_generates E ui cleared cleared results Hq Hs Ho Hsearch')
    as (new & -> & _).
  cbn [snd]. erewrite emitted_app by reflexivity.
  split; [apply filter_http_round|]. split; [apply filter_gpt4_round | done].
Qed.

Lemma X19_witness :
  truthy (search_query demo_ui) = true
  ∧ truthy (serper_api_key demo_ui) = true
  ∧ truthy (openai_api_key demo_ui) = true
  ∧ List.filter is_http
      (emitted (on_clear demo_world).2
         (on_search demo_env demo_ui (on_clear demo_world).2).2) = [].
Proof.
  do 3 (split; [reflexivity|]).
  exact (proj1 (X19_search_again_after_clear demo_env demo_ui initial_world _
                  demo_results eq_refl eq_refl eq_refl demo_search_run)).
Defined.

(** * The streaming callback and the language list *)

Lemma stream_tokens (h : Stream.StreamHandler) (tokens : list str) :
  let h' := fold_left Stream.on_llm_new_token tokens h in
  Stream.text h' = Stream.text h ++ concat tokens
  ∧ Stream.container h'
    = Stream.container h
      ++ map (fun k => Stream.text h ++ concat (take k tokens))
           (seq 1 (length tokens)).
Proof.
  revert h. induction tokens as [|t tokens IH]; intros h; cbn zeta.
  - cbn. by rewrite !app_nil_r.
  - cbn [fold_left]. destruct (IH (Stream.on_llm_new_token h t)) as [-> ->].
    cbn [Stream.on_llm_new_token Stream.text Stream.container length seq map
         concat].
    split; [by rewrite <- app_assoc|].
    rewrite <- app_assoc. f_equal. cbn [app take concat]. rewrite app_nil_r.
    rewrite <- (List.seq_shift (length tokens) 1), List.map_map.
    f_equal. apply List.map_ext. intros k. cbn. by rewrite <- app_assoc.
Qed.

(** X20. A [StreamHandler] that has received a sequence of tokens holds the
    initial text followed by all the tokens, and has shown in its container
    one text per token: after the k-th token, the initial text followed by
    the first k tokens.  What the container shows last is the whole text. *)
Theorem X20_stream_handler (shown : list str) (initial_text : str)
    (tokens : list str) :
  let h := fold_left Stream.on_llm_new_token tokens
             (Stream.init shown initial_text) in
  Stream.text h = initial_text ++ concat tokens
  ∧ Stream.container h
    = shown ++ map (fun k => initial_text ++ concat (take k tokens))
                 (seq 1 (length tokens))
  ∧ (tokens ≠ [] → last (Stream.container h) = Some (Stream.text h)).
Proof.
  cbn zeta.
  destruct (stream_tokens (Stream.init shown initial_text) tokens) as [Ht Hc].
  cbn zeta in Ht, Hc. cbn [Stream.init Stream.text Stream.container] in Ht, Hc.
  split; [done|]. split; [done|].
  intros Hne. rewrite Hc, Ht.
  destruct tokens as [|t tokens _] using rev_ind; [done|].
  rewrite length_app, Nat.add_comm. cbn [length Nat.add].
  rewrite seq_S, map_app, app_assoc. cbn [map].
  rewrite last_snoc. f_equal. f_equal. f_equal.
  rewrite take_ge; [done|]. rewrite length_app. cbn. lia.
Qed.

Lemma X20_witness :
  [codes "Hel"; codes "lo"] ≠ []
  ∧ last (Stream.container
            (fold_left Stream.on_llm_new_token [codes "Hel"; codes "lo"]
               (Stream.init [] [])))
    = Some (codes "Hello").
Proof.
  assert ([codes "Hel"; codes "lo"] ≠ []) as H by discriminate.
  split; [exact H|].
  exact (eq_trans
           (proj2 (proj2 (X20_stream_handler [] [] [codes "Hel"; codes "lo"])) H)
           eq_refl).
Defined.

(** X21. Every name in [languages] is left as it is by the sanitizer and
    by [strip]: for the languages the page offers, the language named in
    the prompt and stored with a draft is the selected name itself.  The
    list offers 52 names, all different. *)
Theorem X21_languages_unchanged :
  Forall (fun l => clean_text_content l = l
                   ∧ strip (clean_text_content l) = l) languages
  ∧ length languages = 52%nat
  ∧ NoDup languages.
Proof.
  split; [|split; [reflexivity|]];
    apply (bool_decide_unpack _); vm_compute; exact I.
Qed.

(** * Translation and the report of an upload *)

(** X22. A text returned by [translate_content] is a reply of the
    translation model exactly as the model gave it: unlike a generated
    draft it is not sanitized, so its parentheses and line breaks stay. *)
Theorem X22_translation_is_verbatim (E : env)
    (content target_language api_key translated : str) (w : world) :
  (translate_content E content target_language api_key w).1
  = Done (Value translated) →
  truthy api_key = true
  ∧ sutra_invoke E (trace w) api_key (system_message content target_language)
    = Returns translated.
Proof.
  unfold translate_content. destruct (truthy api_key); cbn [negb];
    [|discriminate].
  run_monad. destruct (sutra_invoke E (trace w) api_key _); [|discriminate].
  by intros [= ->].
Qed.

Lemma X22_witness :
  (translate_content failing_env (codes "text") (codes "French")
     (codes "sutra-key") initial_world).1
  = Done (Value (codes "texte (traduit)"))
  ∧ sutra_invoke failing_env [] (codes "sutra-key")
      (system_message (codes "text") (codes "French"))
    = Returns (codes "texte (traduit)").
Proof.
  assert ((translate_content failing_env (codes "text") (codes "French")
             (codes "sutra-key") initial_world).1
          = Done (Value (codes "texte (traduit)"))) as H by reflexivity.
  split; [exact H|].
  exact (proj2 (X22_translation_is_verbatim failing_env (codes "text")
                  (codes "French") (codes "sutra-key")
                  (codes "texte (traduit)") initial_world H)).
Defined.

(** X23. With a Composio key and an author, "Upload to LinkedIn" under an
    existing draft runs the agent once and then shows exactly one message:
    the success box naming the sanitized language of the draft when the
    agent returns, and "Upload failed: LinkedIn upload failed: " followed by
    the exception text when the agent raises. *)
Theorem X23_upload_report (E : env) (ui : widgets) (i : nat)
    (edited_content : str) (w : world) (post_data : post) :
  generated_posts w !! i = Some post_data →
  truthy (composio_api_key ui) = true →
  truthy (linkedin_author_urn ui) = true →
  let request :=
    AgentRun (openai_api_key ui) (composio_api_key ui)
      (task (clean_text_content edited_content) (linkedin_author_urn ui)) in
  let sent := emitted w (on_upload E ui i edited_content w).2 in
  (∀ result,
     agent_run E (trace w) (openai_api_key ui) (composio_api_key ui)
       (task (clean_text_content edited_content) (linkedin_author_urn ui))
     = Returns result →
     sent = [request;
             StMarkdown (uploaded_html (clean_text_content (language post_data)))])
  ∧ (∀ e,
       agent_run E (trace w) (openai_api_key ui) (composio_api_key ui)
         (task (clean_text_content edited_content) (linkedin_author_urn ui))
       = Raises e →
       sent = [request;
               StError (codes "Upload failed: LinkedIn upload failed: " ++ e)]).
Proof.
  intros Hpost Hc Hu. cbn zeta. rewrite on_upload_run, Hpost, Hc, Hu.
  cbn [negb snd]. rewrite emitted_set_trace.
  split.
  - by intros result ->.
  - intros e ->. by rewrite app_assoc.
Qed.

Lemma X23_witness :
  truthy (composio_api_key demo_ui) = true
  ∧ truthy (linkedin_author_urn demo_ui) = true
  ∧ emitted demo_world
      (on_upload crash_env demo_ui 0 (codes "Big news today") demo_world).2
    = [AgentRun (codes "openai-key") (codes "composio-key")
         (task (codes "Big news today") (codes "urn:li:person:1"));
       StError (codes "Upload failed: LinkedIn upload failed: " ++ codes "401")].
Proof.
  do 2 (split; [reflexivity|]).
  refine (proj2 (X23_upload_report crash_env demo_ui 0 (codes "Big news today")
                   demo_world _ _ eq_refl eq_refl) (codes "401") eq_refl).
  vm_compute. reflexivity.
Defined.
